(** * AICR: diff-to-review pipeline, shallow embedding

    Embedding of the diff parser, line grouper, comment matcher, batch
    result parser, review cache and file-level orchestration of the AI code
    reviewer.  A JavaScript string is modelled as the [String.string] of its
    UTF-8 bytes (the Chinese literals of the source are their UTF-8 bytes);
    [JS.length] recovers the UTF-16 length that [.length] reports, and
    [trim] and [\s] know the multi-byte white-space characters.  Lower-casing
    is modelled on ASCII letters.  Line numbers and timestamps are [Z]. *)

From Stdlib Require Import ZArith Ascii List Bool Lia DecimalString.
From stdpp Require Import base gmap strings list.
Import ListNotations.

Open Scope Z_scope.

(** ** JavaScript string primitives *)
Module JS.

Definition code (c : ascii) : nat := Ascii.nat_of_ascii c.

(** The one-byte white-space characters of [\s] and [trim]: tab, LF, VT,
    FF, CR and space. *)
Definition is_ws (c : ascii) : bool :=
  let n := code c in
  (Nat.eqb n 9 || Nat.eqb n 10 || Nat.eqb n 11 || Nat.eqb n 12 || Nat.eqb n 13
   || Nat.eqb n 32)%bool.

(** The UTF-8 bytes of the other white-space characters of [\s] and [trim]:
    U+00A0 (two bytes); U+1680, U+2000-U+200A, U+2028, U+2029, U+202F,
    U+205F, U+3000 and U+FEFF (three bytes). *)
Definition ws2 (a b : ascii) : bool := (Nat.eqb (code a) 194 && Nat.eqb (code b) 160)%bool.

Definition ws3_last (z : nat) : bool :=
  (Nat.leb 128 z && Nat.leb z 138 || Nat.eqb z 168 || Nat.eqb z 169 || Nat.eqb z 175)%bool.

Definition ws3 (a b c : ascii) : bool :=
  let x := code a in let y := code b in let z := code c in
  (Nat.eqb x 225 && Nat.eqb y 154 && Nat.eqb z 128 ||
   Nat.eqb x 226 && Nat.eqb y 128 && ws3_last z ||
   Nat.eqb x 226 && Nat.eqb y 129 && Nat.eqb z 159 ||
   Nat.eqb x 227 && Nat.eqb y 128 && Nat.eqb z 128 ||
   Nat.eqb x 239 && Nat.eqb y 187 && Nat.eqb z 191)%bool.

Definition is_digit (c : ascii) : bool :=
  (Nat.leb 48 (code c) && Nat.leb (code c) 57)%bool.

(** [\w]: [A-Za-z0-9_]. *)
Definition is_word (c : ascii) : bool :=
  let n := code c in
  (is_digit c || (Nat.leb 65 n && Nat.leb n 90) || (Nat.leb 97 n && Nat.leb n 122)
   || Nat.eqb n 95)%bool.

Definition is_char (n : nat) (c : ascii) : bool := Nat.eqb (code c) n.

(** [s.startsWith(p)] *)
Definition startsWith (s p : string) : bool := String.prefix p s.

(** [s.includes(p)] *)
Fixpoint includes (s p : string) : bool :=
  (String.prefix p s ||
   match s with
   | EmptyString => false
   | String _ s' => includes s' p
   end)%bool.

(** [s.endsWith(p)] *)
Definition endsWith (s p : string) : bool :=
  let n := String.length s in
  let m := String.length p in
  (Nat.leb m n && String.eqb (String.substring (n - m) m s) p)%bool.

(** [s.substring(1)] *)
Definition substring1 (s : string) : string :=
  match s with
  | EmptyString => EmptyString
  | String _ s' => s'
  end.

(** [s.trimStart()]: drop white-space characters, of one, two or three
    bytes, from the front. *)
Fixpoint trimStart (s : string) : string :=
  match s with
  | EmptyString => EmptyString
  | String a s1 =>
      if is_ws a then trimStart s1 else
      match s1 with
      | String b s2 =>
          if ws2 a b then trimStart s2 else
          match s2 with
          | String c s3 => if ws3 a b c then trimStart s3 else s
          | EmptyString => s
          end
      | EmptyString => s
      end
  end.

(** The same on the reversed bytes: a character's bytes come last first. *)
Fixpoint trimStart_rev (s : string) : string :=
  match s with
  | EmptyString => EmptyString
  | String a s1 =>
      if is_ws a then trimStart_rev s1 else
      match s1 with
      | String b s2 =>
          if ws2 b a then trimStart_rev s2 else
          match s2 with
          | String c s3 => if ws3 c b a then trimStart_rev s3 else s
          | EmptyString => s
          end
      | EmptyString => s
      end
  end.

Fixpoint rev_str (s : string) (acc : string) : string :=
  match s with
  | EmptyString => acc
  | String c s' => rev_str s' (String c acc)
  end.

(** [s.trimEnd()] *)
Definition trimEnd (s : string) : string :=
  rev_str (trimStart_rev (rev_str s EmptyString)) EmptyString.

(** [s.trim()] *)
Definition trim (s : string) : string := trimEnd (trimStart s).

(** [s.split("\n")]: the empty string gives [[""]], a trailing newline gives
    a trailing empty piece. *)
Fixpoint split_nl (s : string) : list string :=
  match s with
  | EmptyString => [EmptyString]
  | String c s' =>
      let rest := split_nl s' in
      if is_char 10 c then EmptyString :: rest
      else match rest with
           | h :: t => String c h :: t
           | [] => [String c EmptyString]
           end
  end.

(** [s.replace(/\s+/g, "")] *)
Fixpoint remove_ws (s : string) : string :=
  match s with
  | EmptyString => EmptyString
  | String a s1 =>
      if is_ws a then remove_ws s1 else
      match s1 with
      | String b s2 =>
          if ws2 a b then remove_ws s2 else
          match s2 with
          | String c s3 => if ws3 a b c then remove_ws s3 else String a (remove_ws s1)
          | EmptyString => String a (remove_ws s1)
          end
      | EmptyString => String a (remove_ws s1)
      end
  end.

(** [s.toLowerCase()] on ASCII letters; other characters are kept (CJK
    text has no case). *)
Definition lower_char (c : ascii) : ascii :=
  let n := code c in
  if (Nat.leb 65 n && Nat.leb n 90)%bool then Ascii.ascii_of_nat (n + 32) else c.

Fixpoint toLowerCase (s : string) : string :=
  match s with
  | EmptyString => EmptyString
  | String c s' => String (lower_char c) (toLowerCase s')
  end.

(** Maximal run of leading characters satisfying [p]. *)
Fixpoint span (p : ascii -> bool) (s : string) : string * string :=
  match s with
  | EmptyString => (EmptyString, EmptyString)
  | String c s' =>
      if p c then let '(a, b) := span p s' in (String c a, b)
      else (EmptyString, s)
  end.

(** [parseInt] of a non-empty run of decimal digits. *)
Fixpoint digits_value_acc (s : string) (acc : Z) : Z :=
  match s with
  | EmptyString => acc
  | String c s' => digits_value_acc s' (10 * acc + Z.of_nat (code c - 48))
  end.

Definition parseInt_digits (s : string) : Z := digits_value_acc s 0.

(** The UTF-16 code units of the character starting with byte [a]: ASCII,
    then two-, three- and four-byte sequences (the last one a surrogate
    pair).  A byte that starts no complete sequence counts as one unit; the
    strings the program handles are well-formed UTF-8. *)
Definition cont (b : ascii) : Z := Z.land (Z.of_nat (code b)) 63.

Fixpoint utf16_units (l : list ascii) : list Z :=
  match l with
  | [] => []
  | a :: l1 =>
      let x := Z.of_nat (code a) in
      if x <? 192 then x :: utf16_units l1
      else if x <? 224 then
        match l1 with
        | b :: l2 => (Z.shiftl (Z.land x 31) 6 + cont b) :: utf16_units l2
        | [] => [x]
        end
      else if x <? 240 then
        match l1 with
        | b :: c :: l3 =>
            (Z.shiftl (Z.land x 15) 12 + Z.shiftl (cont b) 6 + cont c) :: utf16_units l3
        | _ => x :: utf16_units l1
        end
      else
        match l1 with
        | b :: c :: d :: l4 =>
            let cp := Z.shiftl (Z.land x 7) 18 + Z.shiftl (cont b) 12 +
                      Z.shiftl (cont c) 6 + cont d - 65536 in
            (55296 + Z.shiftr cp 10) :: (56320 + Z.land cp 1023) :: utf16_units l4
        | _ => x :: utf16_units l1
        end
  end.

(** The JavaScript string a byte string stands for, as its code units. *)
Definition units (s : string) : list Z := utf16_units (String.list_ascii_of_string s).

(** [s.length]: the number of UTF-16 code units. *)
Definition length (s : string) : nat := List.length (units s).

End JS.

(** ** A backtracking matcher for the start-anchored regular expressions of
    the source ([pattern.test(s)] with [^] at the front). *)
Module Regex.

Inductive re : Type :=
| RChar (p : ascii -> bool)
| RSeq (a b : re)
| RAlt (a b : re)
| RStar (a : re)
| REps
| REnd.

(** Continuation-passing backtracking; the tests short-circuit, like the
    JavaScript matcher, so that alternatives are only tried when needed. *)
Fixpoint rmatch (r : re) (s : list ascii) (k : list ascii -> bool) : bool :=
  match r with
  | RChar p => match s with c :: s' => if p c then k s' else false | [] => false end
  | RSeq a b => rmatch a s (fun s' => rmatch b s' k)
  | RAlt a b => if rmatch a s k then true else rmatch b s k
  | RStar a =>
      (fix loop (n : nat) (s : list ascii) {struct n} : bool :=
         if k s then true else
          match n with
          | O => false
          | S n' => rmatch a s (fun s' => if Nat.ltb (length s') (length s) then loop n' s' else false)
          end) (length s) s
  | REps => k s
  | REnd => match s with [] => k s | _ => false end
  end.

Definition RPlus (a : re) : re := RSeq a (RStar a).
Definition ROpt (a : re) : re := RAlt a REps.

Fixpoint RStr (s : string) : re :=
  match s with
  | EmptyString => REps
  | String c s' => RSeq (RChar (fun d => Ascii.eqb d c)) (RStr s')
  end.

Fixpoint RSeqs (l : list re) : re :=
  match l with
  | [] => REps
  | [a] => a
  | a :: l' => RSeq a (RSeqs l')
  end.

Fixpoint RAlts (l : list re) : re :=
  match l with
  | [] => RChar (fun _ => false)
  | [a] => a
  | a :: l' => RAlt a (RAlts l')
  end.

(** [\s]: one white-space character, of one, two or three bytes. *)
Definition ws : re :=
  RAlts [RChar JS.is_ws;
         RSeq (RChar (JS.is_char 194)) (RChar (JS.is_char 160));
         RSeqs [RChar (JS.is_char 225); RChar (JS.is_char 154); RChar (JS.is_char 128)];
         RSeqs [RChar (JS.is_char 226); RChar (JS.is_char 128); RChar (fun c => JS.ws3_last (JS.code c))];
         RSeqs [RChar (JS.is_char 226); RChar (JS.is_char 129); RChar (JS.is_char 159)];
         RSeqs [RChar (JS.is_char 227); RChar (JS.is_char 128); RChar (JS.is_char 128)];
         RSeqs [RChar (JS.is_char 239); RChar (JS.is_char 187); RChar (JS.is_char 191)]].
Definition word : re := RChar JS.is_word.

(** [pattern.test(s)] for a pattern anchored with [^]. *)
Definition test (r : re) (s : string) : bool :=
  rmatch r (String.list_ascii_of_string s) (fun _ => true).

End Regex.

(** ** Configuration ([config/aiReviewConfig.js]) *)
Module Config.

(** [parseInt(process.env.X) || d]: an unset or unparsable variable is
    [None] (NaN), and a parsed 0 is falsy too. *)
Definition env_or (env : option Z) (d : Z) : Z :=
  match env with
  | Some n => if Z.eqb n 0 then d else n
  | None => d
  end.

(** [performance.maxLinesPerGroup: parseInt(process.env.MAX_LINES_PER_GROUP) || 1000] *)
Definition maxLinesPerGroup (env : option Z) : Z := env_or env 1000.

(** [cache.expiry: 24 * 60 * 60 * 1000] and [cache.maxSize: 1000] *)
Definition cache_expiry : Z := 24 * 60 * 60 * 1000.
Definition cache_maxSize : nat := 1000.

End Config.

(** ** [utils/codeProcessor.js] *)
Module CodeProcessor.
Import Regex.

Record changeLine : Type := mkLine {
  ltype : string;
  lineNumber : Z;
  content : string;
  originalLine : string
}.

(** The hunk header regex [/@@ -(\d+),?\d* \+(\d+),?\d*/], tried at the
    front of [s]; returns capture group 2. *)
Definition hunk_at (s : string) : option string :=
  let after_plus (r : string) : option string :=
    if String.prefix " +" r then
      let '(d, _) := JS.span JS.is_digit (String.substring 2 (String.length r) r) in
      match d with EmptyString => None | _ => Some d end
    else None in
  if String.prefix "@@ -" s then
    let '(d1, r1) := JS.span JS.is_digit (String.substring 4 (String.length s) s) in
    match d1 with
    | EmptyString => None
    | _ =>
        match r1 with
        | String c r2 =>
            if JS.is_char 44 c then
              let '(_, r3) := JS.span JS.is_digit r2 in after_plus r3
            else after_plus r1
        | EmptyString => None
        end
    end
  else None.

(** [line.match(regex)]: leftmost match, the regex is not anchored. *)
Fixpoint match_hunk (s : string) : option string :=
  match hunk_at s with
  | Some d => Some d
  | None =>
      match s with
      | EmptyString => None
      | String _ s' => match_hunk s'
      end
  end.

Definition is_added (line : string) : bool :=
  (JS.startsWith line "+" && negb (JS.startsWith line "+++"))%bool.

(** The loop of [parseDiffLines], with [currentLineNumber] as [cur]. *)
Fixpoint parse_lines (lines : list string) (cur : Z) : list changeLine :=
  match lines with
  | [] => []
  | line :: rest =>
      if JS.startsWith line "@@" then
        let cur' := match match_hunk line with
                    | Some d => JS.parseInt_digits d
                    | None => cur
                    end in
        parse_lines rest cur'
      else if is_added line then
        mkLine "added" cur (JS.substring1 line) line :: parse_lines rest (cur + 1)
      else if (JS.startsWith line "-" && negb (JS.startsWith line "---"))%bool then
        parse_lines rest cur
      else if (negb (JS.startsWith line "---") && negb (JS.startsWith line "+++"))%bool then
        parse_lines rest (cur + 1)
      else parse_lines rest cur
  end.

(** [CodeProcessor.parseDiffLines(diff)] *)
Definition parseDiffLines (diff : string) : list changeLine :=
  parse_lines (JS.split_nl diff) 0.

(** The value of [currentLineNumber] after scanning [lines]. *)
Fixpoint counter_after (lines : list string) (cur : Z) : Z :=
  match lines with
  | [] => cur
  | line :: rest =>
      if JS.startsWith line "@@" then
        counter_after rest (match match_hunk line with
                            | Some d => JS.parseInt_digits d
                            | None => cur
                            end)
      else if is_added line then counter_after rest (cur + 1)
      else if (JS.startsWith line "-" && negb (JS.startsWith line "---"))%bool then
        counter_after rest cur
      else if (negb (JS.startsWith line "---") && negb (JS.startsWith line "+++"))%bool then
        counter_after rest (cur + 1)
      else counter_after rest cur
  end.

(** Lines that advance the counter without being emitted (context lines). *)
Definition advances (line : string) : bool :=
  (negb (JS.startsWith line "-") && negb (JS.startsWith line "+++"))%bool.

(** *** Grouping *)
Record group : Type := mkGroup {
  gid : nat;
  glines : list changeLine;
  startLine : Z;
  endLine : Z;
  gtype : string
}.

Definition createNewGroup (line : changeLine) (id : nat) : group :=
  mkGroup id [line] (lineNumber line) (lineNumber line) "added".

Definition addLineToGroup (g : group) (line : changeLine) : group :=
  mkGroup (gid g) (glines g ++ [line]) (startLine g) (lineNumber line) (gtype g).

Definition shouldStartNewGroupBasic (currentLine lastLine : changeLine) (currentGroup : group) : bool :=
  negb (Z.eqb (lineNumber currentLine) (lineNumber lastLine + 1)).

Definition async_ws : re := ROpt (RSeq (RStr "async") (RPlus ws)).

Definition assign_fn (kw : string) : re :=
  RSeqs [RStr kw; RPlus ws; RPlus word; RStar ws; RStr "="; RStar ws; async_ws; RStr "("].

Definition functionStartPatterns : list re := [
  RSeq (RStar ws) (RAlts [RStr "function";
                          RSeqs [RStr "async"; RPlus ws; RStr "function"];
                          assign_fn "const"; assign_fn "let"; assign_fn "var"]);
  RSeqs [RStar ws; RPlus word; RStar ws; RStr ":"; RStar ws; async_ws; RStr "("];
  RSeqs [RStar ws; RStr "static"; RPlus ws; async_ws; RPlus word; RStar ws; RStr "("]
].

Definition isFunctionStart (currentContent : string) : bool :=
  existsb (fun p => test p currentContent) functionStartPatterns.

Definition decl_kw : re := RAlts [RStr "class"; RStr "interface"; RStr "type"; RStr "enum"].

Definition classObjectPatterns : list re := [
  RSeqs [RStar ws; decl_kw; RPlus ws; RPlus word];
  RSeqs [RStar ws; RStr "export"; RPlus ws; decl_kw]
].

Definition isClassObjectStart (currentContent : string) : bool :=
  existsb (fun p => test p currentContent) classObjectPatterns.

Definition commentPatterns : list re := [
  RSeq (RStar ws) (RStr "/**");
  RSeqs [RStar ws; RStr "*/"; RStar ws; REnd];
  RSeq (RStar ws) (RStr "/*")
].

Definition isCommentBlockBoundary (currentContent lastContent : string) : bool :=
  existsb (fun p => test p currentContent) commentPatterns.

(** [shouldStartNewGroup], with [AI_REVIEW_CONFIG.performance.maxLinesPerGroup]
    passed as [maxLines]. *)
Definition shouldStartNewGroup (maxLines : Z) (currentLine lastLine : changeLine)
    (currentGroup : group) : bool :=
  if negb (Z.eqb (lineNumber currentLine) (lineNumber lastLine + 1)) then true
  else if Z.geb (Z.of_nat (length (glines currentGroup))) maxLines then true
  else
    let currentContent := JS.trim (content currentLine) in
    let lastContent := JS.trim (content lastLine) in
    if isFunctionStart currentContent then true
    else if isClassObjectStart currentContent then true
    else if isCommentBlockBoundary currentContent lastContent then true
    else false.

(** The [for] loop of [groupLines]: [groups] are the pushed groups. *)
Fixpoint group_loop (maxLines : Z) (useSmartGrouping : bool) (rest : list changeLine)
    (groups : list group) (currentGroup : group) : list group :=
  match rest with
  | [] => groups ++ [currentGroup]
  | currentLine :: rest' =>
      let lastLine := List.last (glines currentGroup) currentLine in
      let start := if useSmartGrouping
                   then shouldStartNewGroup maxLines currentLine lastLine currentGroup
                   else shouldStartNewGroupBasic currentLine lastLine currentGroup in
      if start then
        let groups' := groups ++ [currentGroup] in
        group_loop maxLines useSmartGrouping rest' groups'
          (createNewGroup currentLine (length groups' + 1))
      else group_loop maxLines useSmartGrouping rest' groups
             (addLineToGroup currentGroup currentLine)
  end.

Definition groupLines (maxLines : Z) (changeLines : list changeLine) (useSmartGrouping : bool)
    : list group :=
  match changeLines with
  | [] => []
  | l0 :: rest => group_loop maxLines useSmartGrouping rest [] (createNewGroup l0 1)
  end.

(** [optimizeLineGroups] (smart mode) under the environment value of
    [MAX_LINES_PER_GROUP]. *)
Definition optimizeLineGroups (env : option Z) (changeLines : list changeLine) : list group :=
  groupLines (Config.maxLinesPerGroup env) changeLines true.

Definition groupConsecutiveLines (env : option Z) (changeLines : list changeLine) : list group :=
  groupLines (Config.maxLinesPerGroup env) changeLines false.

End CodeProcessor.

(** ** [utils/fileFilter.js] *)
Module FileFilter.
Import Regex.

Definition countAddedLines (diff : string) : nat :=
  length (List.filter CodeProcessor.is_added (JS.split_nl diff)).

Definition matchesPatterns (fileNameLower : string) (patterns : list string) : bool :=
  existsb (fun p => JS.includes fileNameLower (JS.toLowerCase p)) patterns.

Definition matchesExtensions (fileNameLower : string) (extensions : list string) : bool :=
  existsb (fun p => JS.endsWith fileNameLower (JS.toLowerCase p)) extensions.

Definition ignoredExtensions : list string :=
  [".css"; ".scss"; ".sass"; ".less"; ".styl";
   ".md"; ".markdown"; ".mdx"; ".txt"; ".rst"; ".adoc"; ".doc"; ".docx"; ".pdf";
   ".toml"; ".ini"; ".conf"; ".cfg"; ".config"].

Record specialRule : Type := mkRule {
  rule_enabled : bool;
  rule_patterns : list string;
  rule_action : string
}.

(** [fileTypeRules.specialHandling], in [Object.entries] order. *)
Definition specialHandling : list specialRule := [
  mkRule true ["package.json"; "package-lock.json"] "skip";
  mkRule true ["pnpm-lock.yaml"; "yarn.lock"] "syntaxOnly";
  mkRule true [".vue"] "skipStyle"
].

Definition hasSyntaxProblem (content : string) : bool :=
  (JS.includes content "{{" || JS.includes content "}}" ||
   JS.includes content "<<" || JS.includes content ">>")%bool.

Definition hasSyntaxIssues (diff : string) : bool :=
  existsb (fun line => (CodeProcessor.is_added line &&
                        hasSyntaxProblem (JS.trim (JS.substring1 line)))%bool)
          (JS.split_nl diff).

Definition isStyleTag (content : string) : bool :=
  (JS.includes content "<style" || JS.includes content "</style>")%bool.

Record vueAnalysis : Type := mkVue {
  addedLineCount : nat;
  hasStyleChanges : bool;
  hasNonStyleChanges : bool;
  inStyleSection : bool
}.

Definition analyzeVueFileChanges (diff : string) : vueAnalysis :=
  fold_left (fun st line =>
               let content := JS.trim (JS.substring1 line) in
               if isStyleTag content then
                 mkVue (addedLineCount st) (hasStyleChanges st) (hasNonStyleChanges st)
                       (negb (inStyleSection st))
               else if CodeProcessor.is_added line then
                 if inStyleSection st then
                   mkVue (S (addedLineCount st)) true (hasNonStyleChanges st) (inStyleSection st)
                 else
                   mkVue (S (addedLineCount st)) (hasStyleChanges st) true (inStyleSection st)
               else st)
            (JS.split_nl diff) (mkVue 0 false false false).

Definition hasOnlyStyleChanges (diff : string) : bool :=
  let a := analyzeVueFileChanges diff in
  (hasStyleChanges a && negb (hasNonStyleChanges a))%bool.

Definition shouldReviewVueFile (diff : string) : bool :=
  if Nat.eqb (addedLineCount (analyzeVueFileChanges diff)) 0 then false
  else negb (hasOnlyStyleChanges diff).

Definition handleSpecialFileType (action diff : string) : bool :=
  if String.eqb action "skip" then false
  else if String.eqb action "syntaxOnly" then hasSyntaxIssues diff
  else if String.eqb action "skipStyle" then shouldReviewVueFile diff
  else true.

(** [checkSpecialFileHandling]: [None] is the source's [null]. *)
Definition checkSpecialFileHandling (fileName diff : string) : option bool :=
  let fileNameLower := JS.toLowerCase fileName in
  match List.find (fun r => (rule_enabled r && matchesPatterns fileNameLower (rule_patterns r))%bool)
                  specialHandling with
  | Some r => Some (handleSpecialFileType (rule_action r) diff)
  | None => if matchesExtensions fileNameLower ignoredExtensions then Some false else None
  end.

(** [FileFilter.parseDiffLines]: trimmed added and removed lines. *)
Definition parseDiffLines (diff : string) : list string * list string :=
  fold_right (fun line '(added, removed) =>
                if CodeProcessor.is_added line then (JS.trim (JS.substring1 line) :: added, removed)
                else if (JS.startsWith line "-" && negb (JS.startsWith line "---"))%bool
                then (added, JS.trim (JS.substring1 line) :: removed)
                else (added, removed))
             ([], []) (JS.split_nl diff).

(** [/^\s*$/] *)
Definition blank_re : re := RSeq (RStar ws) REnd.

Definition hasOnlyWhitespaceChanges (addedLines removedLines : list string) : bool :=
  (forallb (test blank_re) addedLines && forallb (test blank_re) removedLines)%bool.

Definition isCommentLine (line : string) : bool :=
  (JS.startsWith line "//" || JS.startsWith line "/*" ||
   JS.startsWith line "*" || JS.startsWith line "*/")%bool.

Definition hasOnlyCommentFormatChanges (addedLines removedLines : list string) : bool :=
  (forallb isCommentLine addedLines && forallb isCommentLine removedLines)%bool.

(** The loop [for (i = 0; i < min(...); i++)] over positional pairs;
    [combine] stops at the shorter list. *)
Definition hasOnlyNormalizedChanges (addedLines removedLines : list string) : bool :=
  existsb (fun '(added, removed) =>
             let addedNormalized := JS.remove_ws added in
             let removedNormalized := JS.remove_ws removed in
             (String.eqb addedNormalized removedNormalized &&
              negb (String.eqb addedNormalized EmptyString))%bool)
          (combine addedLines removedLines).

Definition isFormatOnlyChange (diff : string) : bool :=
  let '(addedLines, removedLines) := parseDiffLines diff in
  if (Nat.eqb (length addedLines) 0 && Nat.eqb (length removedLines) 0)%bool then false
  else if hasOnlyWhitespaceChanges addedLines removedLines then true
  else if hasOnlyCommentFormatChanges addedLines removedLines then true
  else if hasOnlyNormalizedChanges addedLines removedLines then true
  else false.

Definition hasBasicChanges (diff : string) : bool :=
  if Nat.eqb (countAddedLines diff) 0 then false
  else if isFormatOnlyChange diff then false
  else true.

(** [isSignificantChange(diff, change.new_path || change.old_path)]; the
    file name is [None] when both paths are absent or empty. *)
Definition isSignificantChange (diff : string) (fileName : option string) : bool :=
  match fileName with
  | Some f =>
      if String.eqb f EmptyString then hasBasicChanges diff
      else match checkSpecialFileHandling f diff with
           | Some b => b
           | None => hasBasicChanges diff
           end
  | None => hasBasicChanges diff
  end.

End FileFilter.

(** ** [utils/commentMatcher.js] *)
Module CommentMatcher.

(** An existing comment; absent numeric fields are [None]. *)
Record existingComment : Type := mkComment {
  filePath : string;
  note : option string;
  line : option Z;
  cstartLine : option Z;
  cendLine : option Z
}.

(** JavaScript truthiness of an optional number ([undefined] and [0] are
    falsy). *)
Definition truthy (n : option Z) : bool :=
  match n with
  | Some z => negb (Z.eqb z 0)
  | None => false
  end.

Definition isCommentOverlapping (comment : existingComment) (startLine endLine : Z) : bool :=
  if (truthy (cstartLine comment) && truthy (cendLine comment))%bool then
    let cs := default 0 (cstartLine comment) in
    let ce := default 0 (cendLine comment) in
    negb (Z.ltb endLine cs || Z.gtb startLine ce)%bool
  else if truthy (line comment) then
    let l := default 0 (line comment) in
    (Z.geb l startLine && Z.leb l endLine)%bool
  else if String.eqb (filePath comment) "general" then true
  else false.

End CommentMatcher.

(** ** [services/aiApiService.js]: batch result parsing *)
Module AIApiService.
Import CodeProcessor.

Record reviewResult : Type := mkReview {
  rlineNumber : Z;
  rcontent : string;
  review : string;
  groupId : nat;
  isGroupEnd : bool;
  groupSize : nat
}.

(** [group.lines[group.lines.length - 1]]; [None] is [undefined]. *)
Definition lastLine (g : group) : option changeLine :=
  nth_error (glines g) (length (glines g) - 1).

(** The record pushed for group [g] with last line [ll]. *)
Definition review_of (g : group) (ll : changeLine) (text : string) : reviewResult :=
  mkReview (lineNumber ll) (content ll) text (gid g) true (length (glines g)).

(** [reviewText.split('\n').filter(line => line.trim())] *)
Definition nonblank_lines (reviewText : string) : list string :=
  List.filter (fun l => negb (String.eqb (JS.trim l) EmptyString)) (JS.split_nl reviewText).

(** [line.replace(/^\d+\.\s*/, '')] *)
Definition strip_number (l : string) : string :=
  let '(d, r) := JS.span JS.is_digit l in
  match d, r with
  | String _ _, String c r' => if JS.is_char 46 c then JS.trimStart r' else l
  | _, _ => l
  end.

Definition cleanReview (l : string) : string := JS.trim (strip_number l).

(** A loop that may stop on a [TypeError]; the enclosing [try] returns the
    reviews pushed so far. *)
Inductive outcome : Type :=
| Done (acc : list reviewResult)
| Threw (acc : list reviewResult).

Definition outcome_reviews (o : outcome) : list reviewResult :=
  match o with Done acc => acc | Threw acc => acc end.

(** [lines.forEach((line, index) => ...)] of the numbered-line strategy:
    [line] is matched to [groups[index]]; [lastLine.lineNumber] throws when
    the group has no lines. *)
Fixpoint primary (groups : list group) (lines : list string) (index : nat)
    (acc : list reviewResult) : outcome :=
  match lines with
  | [] => Done acc
  | line :: rest =>
      if JS.includes line "PASS" then primary groups rest (S index) acc
      else match nth_error groups index with
           | None => primary groups rest (S index) acc
           | Some group =>
               let c := cleanReview line in
               if (negb (String.eqb c EmptyString) && negb (String.eqb c "PASS"))%bool then
                 match lastLine group with
                 | None => Threw acc
                 | Some ll => primary groups rest (S index) (acc ++ [review_of group ll c])
                 end
               else primary groups rest (S index) acc
           end
  end.

(** Fallback when the response has at least as many lines as groups:
    [responseLines.slice(0, groupCount).forEach(...)]. *)
Definition fallback_by_position (groups : list group) (responseLines : list string) : list reviewResult :=
  outcome_reviews (primary groups (firstn (length groups) responseLines) 0 []).

(** Fallback when the response is shorter than the group count: the whole
    text goes to the first group. *)
Definition fallback_first_group (groups : list group) (reviewText : string) : list reviewResult :=
  match groups with
  | [] => []
  | firstGroup :: _ =>
      match lastLine firstGroup with
      | None => []
      | Some ll => [review_of firstGroup ll (JS.trim reviewText)]
      end
  end.

Definition parseBatchReviewResultFast (groups : list group) (reviewText : string) : list reviewResult :=
  let lines := nonblank_lines reviewText in
  let allPass := forallb (fun line => JS.includes line "PASS") lines in
  if allPass then []
  else if (negb (String.eqb (JS.trim reviewText) EmptyString) &&
           Nat.ltb 10 (JS.length reviewText))%bool then
    match primary groups lines 0 [] with
    | Threw acc => acc
    | Done ((_ :: _) as acc) => acc
    | Done [] =>
        let responseLines := nonblank_lines reviewText in
        if Nat.leb (length groups) (length responseLines)
        then fallback_by_position groups responseLines
        else fallback_first_group groups reviewText
    end
  else [].

End AIApiService.

(** ** [utils/cacheManager.js] *)
Module CacheManager.
Import AIApiService.

Record cacheEntry : Type := mkEntry {
  reviews : list reviewResult;
  timestamp : Z
}.

(** [this.reviewCache = new Map()] *)
Abbreviation reviewCache := (gmap string cacheEntry).

(** [getCachedReview(cacheKey)] at clock value [now]: the result and the
    cache afterwards (a miss deletes the key). *)
Definition getCachedReview (c : reviewCache) (cacheKey : string) (now : Z)
    : option (list reviewResult) * reviewCache :=
  match c !! cacheKey with
  | Some cached =>
      if Z.ltb (now - timestamp cached) Config.cache_expiry then (Some (reviews cached), c)
      else (None, delete cacheKey c)
  | None => (None, delete cacheKey c)
  end.

(** [cleanupCache()]: drop the entries older than the expiry. *)
Definition cleanupCache (c : reviewCache) (now : Z) : reviewCache :=
  filter (fun kv : string * cacheEntry => now - timestamp kv.2 <= Config.cache_expiry) c.

(** [cacheReview(cacheKey, reviews)] at clock value [now]. *)
Definition cacheReview (c : reviewCache) (cacheKey : string) (rs : list reviewResult) (now : Z)
    : reviewCache :=
  let c' := <[cacheKey := mkEntry rs now]> c in
  if Nat.ltb Config.cache_maxSize (size c') then cleanupCache c' now else c'.

Definition Z_to_string (z : Z) : string :=
  NilEmpty.string_of_int (Z.to_int z).

Fixpoint join (sep : string) (l : list string) : string :=
  match l with
  | [] => EmptyString
  | [x] => x
  | x :: l' => (x +:+ sep +:+ join sep l')%string
  end.

(** [generateCacheKey(fileName, groups)] *)
Definition generateCacheKey (fileName : string) (groups : list CodeProcessor.group) : string :=
  let groupContent :=
    join "|" (map (fun g => (Z_to_string (CodeProcessor.startLine g) +:+ "-" +:+
                             Z_to_string (CodeProcessor.endLine g) +:+ ":" +:+
                             join EmptyString (map CodeProcessor.content (CodeProcessor.glines g)))%string)
                  groups) in
  (fileName +:+ ":" +:+ groupContent)%string.

End CacheManager.

(** ** [services/aiCodeReviewer.js]: orchestration *)
Module AICodeReviewer.
Import CodeProcessor AIApiService CacheManager.

(** A thrown error, by its message. *)
Definition exn := string.

(** *** Batches and the review cache *)
Record orchState : Type := mkState {
  cache : reviewCache;
  submissions : nat   (** how many times the model path has been entered *)
}.

Section Batches.

(** The model path of a batch ([processBatchParallel]): deduplication,
    prompt, provider call and parsing.  Its outcome for the [n]-th
    submission is an error or the reviews. *)
Variable processBatchParallel : string -> list group -> nat -> exn + list reviewResult.
(** The per-group fallback ([processGroupsIndividually]); it catches every
    per-group error itself. *)
Variable processGroupsIndividually : string -> list group -> list reviewResult.

(** [processBatchWithFallback(fileName, batch)] at clock value [now]. *)
Definition processBatchWithFallback (fileName : string) (batch : list group) (now : Z)
    (st : orchState) : list reviewResult * orchState :=
  let cacheKey := generateCacheKey fileName batch in
  let '(cachedResult, c1) := getCachedReview (cache st) cacheKey now in
  match cachedResult with
  | Some rs => (rs, mkState c1 (submissions st))   (* a JS array is truthy *)
  | None =>
      let n := submissions st in
      match processBatchParallel fileName batch n with
      | inr rs =>
          if Nat.ltb 0 (length rs) then (rs, mkState (cacheReview c1 cacheKey rs now) (S n))
          else (rs, mkState c1 (S n))
      | inl _ => (processGroupsIndividually fileName batch, mkState c1 (S n))
      end
  end.

(** The same batch submitted again at the clock values [times]. *)
Fixpoint repeat_batch (fileName : string) (batch : list group) (times : list Z)
    (st : orchState) : list (list reviewResult) * orchState :=
  match times with
  | [] => ([], st)
  | t :: ts =>
      let '(r, st1) := processBatchWithFallback fileName batch t st in
      let '(rs, st2) := repeat_batch fileName batch ts st1 in
      (r :: rs, st2)
  end.

End Batches.

(** *** Files *)
Record codeChange : Type := mkChange {
  diff : string;
  new_path : option string;
  old_path : option string
}.

Record fileReviewResult : Type := mkFileReview {
  filePath : option string;
  freview : list reviewResult;
  change : codeChange
}.

(** [change.new_path || change.old_path] *)
Definition fileNameOf (c : codeChange) : option string :=
  match new_path c with
  | Some s => if String.eqb s EmptyString then old_path c else Some s
  | None => old_path c
  end.

(** [CodeProcessor.chunkArray(array, size)] for a positive [size]. *)
Fixpoint chunk_aux {A : Type} (fuel : nat) (size : nat) (l : list A) : list (list A) :=
  match fuel with
  | O => []
  | S fuel' =>
      match l with
      | [] => []
      | _ => firstn size l :: chunk_aux fuel' size (skipn size l)
      end
  end.

Definition chunkArray {A : Type} (array : list A) (size : positive) : list (list A) :=
  chunk_aux (length array) (Pos.to_nat size) array.

(** [Promise.allSettled] results. *)
Inductive settled (A : Type) : Type :=
| Fulfilled (v : A)
| Rejected (e : exn).
Arguments Fulfilled {A} v.
Arguments Rejected {A} e.

Section Files.

(** [generateFileReview(...)] of one change, as a promise that fulfils or
    rejects. *)
Variable generateFileReview : codeChange -> exn + list reviewResult.
(** [CodeProcessor.filterMeaningfulReviews], which may throw on malformed
    reviews. *)
Variable filterMeaningfulReviews : list reviewResult -> exn + list reviewResult.
(** [AI_REVIEW_CONFIG.performance.maxConcurrentFiles] *)
Variable maxConcurrentFiles : positive.

(** [processSingleFile]: its [try]/[catch] turns every error into [null]. *)
Definition processSingleFile (c : codeChange) : option fileReviewResult :=
  match generateFileReview c with
  | inl _ => None
  | inr fileReview =>
      match filterMeaningfulReviews fileReview with
      | inl _ => None
      | inr meaningfulReviews =>
          if Nat.ltb 0 (length meaningfulReviews)
          then Some (mkFileReview (fileNameOf c) meaningfulReviews c)
          else None
      end
  end.

(** [processSingleFile] is an [async] function whose body never throws, so
    its promise always fulfils. *)
Definition settleSingleFile (c : codeChange) : settled (option fileReviewResult) :=
  Fulfilled (processSingleFile c).

Definition collect_fulfilled (results : list (settled (option fileReviewResult)))
    : list fileReviewResult :=
  flat_map (fun r => match r with
                     | Fulfilled (Some v) => [v]
                     | _ => []
                     end) results.

(** [processFilesConcurrently]: chunks run one after the other, the files of
    a chunk together; the result cannot reject. *)
Definition processFilesConcurrently (changes : list codeChange) : list fileReviewResult :=
  flat_map (fun chunk => collect_fulfilled (map settleSingleFile chunk))
           (chunkArray changes maxConcurrentFiles).

(** [generateCodeReview(changes, existingComments, options)] *)
Definition generateCodeReview (changes : list codeChange) : exn + list fileReviewResult :=
  let significantChanges :=
    List.filter (fun c => FileFilter.isSignificantChange (diff c) (fileNameOf c)) changes in
  match significantChanges with
  | [] => inr []
  | _ => inr (processFilesConcurrently significantChanges)
  end.

End Files.

End AICodeReviewer.

(** ** [utils/commentMatcher.js]: similarity of an existing comment *)
Module CommentSimilarity.
Import CodeProcessor CommentMatcher.

(** Text is handled as byte strings; the Chinese keywords are their UTF-8
    bytes, so [includes] on them agrees with the JavaScript one. *)
Definition cons_head (c : ascii) (pieces : list string) : list string :=
  match pieces with
  | h :: t => String c h :: t
  | [] => [String c EmptyString]
  end.

(** The pieces between white-space characters (of one, two or three
    bytes). *)
Fixpoint split_ws_pieces (s : string) : list string :=
  match s with
  | EmptyString => [EmptyString]
  | String a s1 =>
      if JS.is_ws a then EmptyString :: split_ws_pieces s1 else
      match s1 with
      | String b s2 =>
          if JS.ws2 a b then EmptyString :: split_ws_pieces s2 else
          match s2 with
          | String c s3 =>
              if JS.ws3 a b c then EmptyString :: split_ws_pieces s3
              else cons_head a (split_ws_pieces s1)
          | EmptyString => cons_head a (split_ws_pieces s1)
          end
      | EmptyString => cons_head a (split_ws_pieces s1)
      end
  end.

(** [text.split(/\s+/).filter((word) => word.length > 1)]: splitting at
    every whitespace character instead of at runs of them only adds empty
    pieces, which the length filter removes. *)
Definition words (text : string) : list string :=
  List.filter (fun w => Nat.ltb 1 (JS.length w)) (split_ws_pieces text).

Definition commonIssues : list string :=
  ["注释"; "comment"; "无意义"; "无用"; "删除"; "remove";
   "代码质量"; "代码规范"; "最佳实践"; "代码结构"; "无效"; "冗余"].

Definition commentKeywords : list string :=
  ["注释"; "comment"; "无意义"; "无用"; "删除"; "无效"; "冗余"].

Definition similarSuggestions : list string :=
  ["删除"; "remove"; "替换"; "replace"; "避免"; "avoid"].

Definition isCommentRelatedIssue (commentText codeContent : string) : bool :=
  let hasCommentKeywords := existsb (JS.includes commentText) commentKeywords in
  let hasCommentInCode :=
    (JS.includes codeContent "//" || JS.includes codeContent "/*" ||
     JS.includes codeContent "*/")%bool in
  if (hasCommentKeywords && hasCommentInCode)%bool
  then existsb (JS.includes commentText) similarSuggestions
  else false.

(** [isCommentSimilar(comment, lines)].  The test
    [overlapCount / Math.max(a, b) > 0.05] is written [20 * overlapCount >
    Math.max(a, b)]; in doubles both agree for word counts below 2^40. *)
Definition isCommentSimilar (comment : existingComment) (lines : list changeLine) : bool :=
  match note comment with
  | None => false
  | Some n =>
      if String.eqb (JS.trim n) EmptyString then false
      else
        let commentText := JS.toLowerCase n in
        let codeContent := JS.toLowerCase (CacheManager.join " " (map content lines)) in
        let hasCommonIssue := existsb (JS.includes commentText) commonIssues in
        if hasCommonIssue then
          if isCommentRelatedIssue commentText codeContent then true
          else
            let codeWords := words codeContent in
            let commentWords := words commentText in
            let overlapCount :=
              length (List.filter (fun w => existsb (String.eqb w) commentWords) codeWords) in
            (Nat.ltb 0 overlapCount &&
             Nat.ltb (Nat.max (length codeWords) (length commentWords)) (20 * overlapCount))%bool
        else false
  end.

Definition hasSimilarComment (existingComments : list existingComment) (fileName : string)
    (startLine endLine : Z) (lines : list changeLine) : bool :=
  match existingComments with
  | [] => false
  | _ =>
      let fileComments :=
        List.filter (fun comment => (String.eqb (filePath comment) fileName ||
                                     String.eqb (filePath comment) "general")%bool)
                    existingComments in
      existsb (fun comment => (isCommentOverlapping comment startLine endLine &&
                               isCommentSimilar comment lines)%bool) fileComments
  end.

End CommentSimilarity.

(** ** [CodeProcessor.filterMeaningfulReviews] and its quality checks *)
Module ReviewFilter.
Import Regex AIApiService.

Definition lowQualityPatterns : list string :=
  ["PASS"; "pass"; "Pass"; "无问题"; "没问题"; "代码正确"; "语法正确";
   "命名规范"; "逻辑合理"; "没有发现"; "看起来不错"; "代码很好";
   "没有问题"; "代码没问题"].

(** [.]: any character but a line terminator (LF, CR, U+2028, U+2029).
    On the bytes: a byte other than LF, CR and the lead byte E2, or a
    three-byte character led by E2 other than E2 80 A8 and E2 80 A9; under
    [*] (the only place it occurs) this matches exactly the runs of
    characters without a line terminator. *)
Definition dot : re :=
  RAlts [RChar (fun c => negb (JS.is_char 10 c || JS.is_char 13 c || JS.is_char 226 c)%bool);
         RSeqs [RChar (JS.is_char 226); RChar (fun c => negb (JS.is_char 128 c)); RChar (fun _ => true)];
         RSeqs [RChar (JS.is_char 226); RChar (JS.is_char 128);
                RChar (fun c => negb (JS.is_char 168 c || JS.is_char 169 c)%bool)]].

(** A pattern [p1.*p2.*...]; the patterns hold no letters, so the [i] flag
    changes nothing. *)
Fixpoint dot_star_join (parts : list string) : re :=
  match parts with
  | [] => REps
  | [p] => RStr p
  | p :: ps => RSeqs [RStr p; RStar dot; dot_star_join ps]
  end.

Definition verbosePatterns : list re := map dot_star_join [
  ["新增代码逻辑清晰"]; ["结构合理"]; ["符合"; "规范"]; ["不存在明显"; "问题"];
  ["使用合理"]; ["整体设计"]; ["简洁有效"]; ["代码质量良好"]; ["实现方式正确"];
  ["遵循最佳实践"]; ["没有发现"; "问题"]; ["代码结构清晰"]; ["逻辑清晰"];
  ["设计合理"]; ["实现合理"]; ["符合"; "标准"]; ["没有"; "问题"]; ["代码"; "良好"];
  ["整体"; "合理"]; ["结构"; "清晰"]].

Definition emptyWords : list string :=
  ["逻辑"; "结构"; "规范"; "问题"; "合理"; "清晰"; "良好"; "正确";
   "标准"; "实践"; "设计"; "实现"; "方式"; "质量"; "整体"; "简洁";
   "有效"; "符合"; "遵循"; "没有"].

(** [regex.test(s)] for an unanchored pattern: a match at some position. *)
Fixpoint search (r : re) (s : list ascii) : bool :=
  if rmatch r s (fun _ => true) then true else
   match s with
   | [] => false
   | _ :: s' => search r s'
   end.

Definition matchesLowQualityPatterns (reviewLower : string) : bool :=
  existsb (fun p => JS.includes reviewLower (JS.toLowerCase p)) lowQualityPatterns.

Definition matchesVerbosePatterns (review : string) : bool :=
  existsb (fun r => search r (String.list_ascii_of_string review)) verbosePatterns.

Definition hasTooManyEmptyWords (review reviewLower : string) : bool :=
  if Nat.leb (JS.length review) 100 then false
  else Nat.leb 5 (length (List.filter (JS.includes reviewLower) emptyWords)).

Definition isLowQualityReview (review : string) : bool :=
  let reviewLower := JS.toLowerCase review in
  if matchesLowQualityPatterns reviewLower then true
  else if matchesVerbosePatterns review then true
  else if hasTooManyEmptyWords review reviewLower then true
  else false.

(** [`${review.lineNumber}-${review.review.substring(0, 50)}`] as its
    UTF-16 code units: [substring(0, 50)] keeps the first 50 units. *)
Definition contentKey (r : reviewResult) : list Z :=
  JS.units (CacheManager.Z_to_string (rlineNumber r) +:+ "-")%string ++
  firstn 50 (JS.units (review r)).

(** Equality of two JavaScript strings given by their code units. *)
Definition key_eqb (a b : list Z) : bool := bool_decide (a = b).

(** The loop with the [seenContent] set (as a list) and the output. *)
Fixpoint filter_loop (reviews : list reviewResult) (seenContent : list (list Z))
    : list reviewResult :=
  match reviews with
  | [] => []
  | r :: rest =>
      if String.eqb (JS.trim (review r)) EmptyString then filter_loop rest seenContent
      else
        let key := contentKey r in
        if existsb (key_eqb key) seenContent then filter_loop rest seenContent
        else if Nat.ltb (JS.length (review r)) 15 then filter_loop rest seenContent
        else if isLowQualityReview (review r) then filter_loop rest seenContent
        else r :: filter_loop rest (key :: seenContent)
  end.

Definition filterMeaningfulReviews (reviews : list reviewResult) : list reviewResult :=
  match reviews with
  | [] => []
  | _ => filter_loop reviews []
  end.

End ReviewFilter.

(** ** [CodeProcessor.preFilterCodeLines] *)
Module PreFilter.
Import Regex CodeProcessor.

(** A literal under the [i] flag (ASCII letters). *)
Fixpoint RIStr (s : string) : re :=
  match s with
  | EmptyString => REps
  | String c s' => RSeq (RChar (fun d => Ascii.eqb (JS.lower_char d) (JS.lower_char c))) (RIStr s')
  end.

Definition lit (s : string) : re := RStr s.
Definition sp : re := RStar ws.
Definition blank_line (body : list re) : re := RSeqs ([sp] ++ body ++ [sp; REnd]).

(** [AI_REVIEW_CONFIG.skipPatterns] *)
Definition skipPatterns : list re := [
  RSeqs [sp; lit "//"; sp; RIStr "TODO:"];
  RSeqs [sp; lit "//"; sp; RIStr "FIXME:"];
  RSeqs [sp; lit "//"; sp; RIStr "NOTE:"];
  RSeqs [sp; lit "/*"; RStar ReviewFilter.dot; lit "*/"; sp; REnd];
  RSeqs [sp; RIStr "console.log"; sp; lit "("];
  RSeqs [sp; RIStr "console.warn"; sp; lit "("];
  RSeqs [sp; RIStr "console.error"; sp; lit "("];
  RSeqs [sp; lit "debugger"; sp; ROpt (lit ";"); sp; REnd];
  RSeqs [sp; lit "import"; RPlus ws; RStar ReviewFilter.dot; RPlus ws; lit "from"; RPlus ws;
         RChar (fun c => (JS.is_char 39 c || JS.is_char 34 c)%bool)];
  RSeqs [sp; lit "export"; RPlus ws];
  blank_line [lit "}"];
  blank_line [lit "{"];
  blank_line [lit ")"];
  blank_line [lit "("];
  blank_line [lit ";"];
  blank_line [lit ","];
  blank_line [lit "["; sp; lit "]"];
  blank_line [lit "{"; sp; lit "}"]
].

(** [quickCheckRules.minLength] *)
Definition minLength : nat := 3.

Definition isValidContentLength (content : string) : bool :=
  if Nat.ltb (JS.length content) minLength then false else true.

Definition matchesSkipPatterns (content : string) : bool :=
  existsb (fun p => test p content) skipPatterns.

(** [quickCheckRules.notJustWhitespace] is [true]. *)
Definition isNotJustWhitespace (content : string) : bool :=
  negb (test FileFilter.blank_re content).

Definition preFilterCodeLines (changeLines : list changeLine) : list changeLine :=
  List.filter (fun line =>
                 let c := JS.trim (content line) in
                 if negb (isValidContentLength c) then false
                 else if matchesSkipPatterns c then false
                 else if negb (isNotJustWhitespace c) then false
                 else true) changeLines.

End PreFilter.

(** ** The rest of [AICodeReviewer] and [AIApiService.generateGroupReview] *)
Module ReviewPipeline.
Import CodeProcessor AIApiService AICodeReviewer.

(** [isOnlyAddedLines(diff)]: the loop stops at the first removed line. *)
Fixpoint scan_lines (lines : list string) (hasAddedLines : bool) : bool * bool :=
  match lines with
  | [] => (hasAddedLines, false)
  | line :: rest =>
      if is_added line then scan_lines rest true
      else if (JS.startsWith line "-" && negb (JS.startsWith line "---"))%bool
      then (hasAddedLines, true)
      else scan_lines rest hasAddedLines
  end.

Definition isOnlyAddedLines (diff : string) : bool :=
  let '(hasAddedLines, hasRemovedLines) := scan_lines (JS.split_nl diff) false in
  (hasAddedLines && negb hasRemovedLines)%bool.

(** [!change.old_path || ... || this.isOnlyAddedLines(change.diff)] *)
Definition isNewFile (change : codeChange) : bool :=
  match old_path change with
  | None => true
  | Some p => if String.eqb p EmptyString then true else isOnlyAddedLines (diff change)
  end.

Section Model.
(** [callAIForReview(fileName, groups)]: the trimmed response or an error. *)
Variable callAIForReview : string -> list group -> exn + string.

(** [generateGroupReview(fileName, group)]; [None] is [null]. *)
Definition generateGroupReview (fileName : string) (g : group) : option string :=
  match callAIForReview fileName [g] with
  | inl _ => None
  | inr reviewText =>
      if (String.eqb reviewText "PASS" || JS.includes reviewText "PASS" ||
          Nat.ltb (JS.length reviewText) 10)%bool
      then None else Some reviewText
  end.

(** [processGroupsIndividually(fileName, groups)]: a group without lines
    makes [lastLine.lineNumber] throw, which the per-group [catch] swallows. *)
Definition processGroupsIndividually (fileName : string) (groups : list group)
    : list reviewResult :=
  flat_map (fun g =>
              match generateGroupReview fileName g with
              | Some r =>
                  if negb (String.eqb (JS.trim r) EmptyString) then
                    match lastLine g with
                    | Some ll => [review_of g ll r]
                    | None => []
                    end
                  else []
              | None => []
              end) groups.

(** [generateBatchReview(fileName, groups)]: its own [catch] returns [[]],
    so it never rejects. *)
Variable generateBatchReview : string -> list group -> list reviewResult.
Variable existingComments : list CommentMatcher.existingComment.

(** [Math.ceil(n / 2)] *)
Definition half_up (n : nat) : nat := (n + 1) / 2.

(** [processBatchParallel(fileName, batch, existingComments)] *)
Definition processBatchParallel (fileName : string) (batch : list group) : list reviewResult :=
  let filteredGroups :=
    List.filter (fun g => negb (CommentSimilarity.hasSimilarComment existingComments fileName
                                  (startLine g) (endLine g) (glines g))) batch in
  match filteredGroups with
  | [] => []
  | _ =>
      if Nat.leb (length filteredGroups) 3 then generateBatchReview fileName filteredGroups
      else
        let subBatches :=
          chunkArray filteredGroups (Pos.of_nat (half_up (length filteredGroups))) in
        flat_map (generateBatchReview fileName) subBatches
  end.

End Model.

End ReviewPipeline.

(* ================================================================== *)
(** * Properties *)

(** ** Diff parsing *)
Module DiffParsingFacts.
Import CodeProcessor.

Definition count_added (lines : list string) : nat := length (List.filter is_added lines).

Lemma prefix_cons_inv (a : ascii) (p s : string) :
  String.prefix (String a p) s = true ->
  exists s', s = String a s' /\ String.prefix p s' = true.
Proof.
  destruct s as [|b s]; simpl; [discriminate|].
  destruct (ascii_dec a b) as [->|]; [eauto|discriminate].
Qed.

Lemma hunk_line_not_added (line : string) :
  JS.startsWith line "@@" = true -> is_added line = false.
Proof.
  unfold JS.startsWith. intro H.
  destruct (prefix_cons_inv _ _ _ H) as [s' [-> _]]. reflexivity.
Qed.

Lemma dashes_start_dash (line : string) :
  JS.startsWith line "---" = true -> JS.startsWith line "-" = true.
Proof.
  unfold JS.startsWith. intro H.
  destruct (prefix_cons_inv _ _ _ H) as [s' [-> _]].
  simpl. destruct (ascii_dec "-" "-") as [|n]; [destruct s'; reflexivity|congruence].
Qed.

Lemma parse_lines_length (lines : list string) (cur : Z) :
  length (parse_lines lines cur) = count_added lines.
Proof.
  unfold count_added.
  revert cur; induction lines as [|line rest IH]; intro cur; [reflexivity|].
  cbn [parse_lines List.filter].
  destruct (JS.startsWith line "@@") eqn:Hh.
  - rewrite (hunk_line_not_added _ Hh). apply IH.
  - destruct (is_added line); cbn [length]; [f_equal; apply IH|].
    repeat match goal with |- context [if ?b then _ else _] => destruct b end; apply IH.
Qed.

Lemma parse_lines_app (l1 l2 : list string) (cur : Z) :
  parse_lines (l1 ++ l2) cur = parse_lines l1 cur ++ parse_lines l2 (counter_after l1 cur).
Proof.
  revert cur; induction l1 as [|line rest IH]; intro cur; [reflexivity|].
  simpl.
  repeat match goal with |- context [if ?b then _ else _] => destruct b end;
    simpl; rewrite ?IH; reflexivity.
Qed.

(** Context lines between two added lines advance the counter; deletions
    and [---]/[+++] metadata lines do not. *)
Lemma parse_lines_context (mid : list string) (cur : Z) :
  Forall (fun l => is_added l = false /\ JS.startsWith l "@@" = false) mid ->
  parse_lines mid cur = [] /\
  counter_after mid cur = cur + Z.of_nat (length (List.filter advances mid)).
Proof.
  revert cur; induction mid as [|line rest IH]; intros cur Hall; [split; [reflexivity|simpl; lia]|].
  inversion Hall as [|? ? [Hadd Hhd] Hrest]; subst.
  cbn [parse_lines counter_after List.filter]. rewrite Hhd, Hadd.
  destruct (JS.startsWith line "-") eqn:Hm.
  - assert (Ha : advances line = false) by (unfold advances; rewrite Hm; reflexivity).
    rewrite Ha.
    destruct (JS.startsWith line "---"); cbn [andb negb];
      destruct (IH cur Hrest) as [E1 E2]; split; (exact E1 || (rewrite E2; lia)).
  - assert (Hd : JS.startsWith line "---" = false).
    { destruct (JS.startsWith line "---") eqn:Hd; [|reflexivity].
      rewrite (dashes_start_dash _ Hd) in Hm. discriminate. }
    rewrite Hd. cbn [andb negb].
    destruct (JS.startsWith line "+++") eqn:Hp; cbn [negb].
    + assert (Ha : advances line = false)
        by (unfold advances; rewrite Hm, Hp; reflexivity).
      rewrite Ha.
      destruct (IH cur Hrest) as [E1 E2]. split; [exact E1|rewrite E2; lia].
    + assert (Ha : advances line = true)
        by (unfold advances; rewrite Hm, Hp; reflexivity).
      rewrite Ha. cbn [length].
      destruct (IH (cur + 1) Hrest) as [E1 E2]. split; [exact E1|rewrite E2; lia].
Qed.

(** Joins lines with a newline, the inverse of [JS.split_nl]. *)
Fixpoint unlines (ls : list string) : string :=
  match ls with
  | [] => EmptyString
  | [l] => l
  | l :: ls' => (l +:+ String (Ascii.ascii_of_nat 10) EmptyString +:+ unlines ls')%string
  end.

Definition diff_with_context : string := unlines ["@@ -1,2 +1,3 @@"; "+a"; " b"; "+c"].

(** C1 (counterexample): two consecutively emitted added lines with no hunk
    header between them can be more than one line apart: the context line
    between them advances the counter. *)
Lemma C1_context_line_gap :
  ~ (forall (diff : string) (pre : list string) (l1 : string) (mid : list string)
        (l2 : string) (post : list string) (k : list changeLine) (a1 a2 : changeLine)
        (rest : list changeLine),
        JS.split_nl diff = pre ++ l1 :: mid ++ l2 :: post ->
        is_added l1 = true -> is_added l2 = true ->
        Forall (fun l => JS.startsWith l "@@" = false) mid ->
        parseDiffLines diff = k ++ a1 :: a2 :: rest ->
        length k = count_added pre ->
        lineNumber a2 = lineNumber a1 + 1).
Proof.
  intro H.
  assert (E := H diff_with_context ["@@ -1,2 +1,3 @@"] "+a" [" b"] "+c" []
                 [] (mkLine "added" 1 "a" "+a") (mkLine "added" 3 "c" "+c") []
                 eq_refl eq_refl eq_refl
                 ltac:(constructor; [reflexivity|constructor]) eq_refl eq_refl).
  simpl in E. lia.
Qed.

(** C1 (amended): the number of emitted added lines is the number of diff
    lines starting with [+] but not [+++]; and between two consecutively
    emitted added lines with no hunk header between them, the second's
    [lineNumber] is the first's plus one plus the number of context lines
    between them (lines starting neither with [-] nor with [+++]). *)
Theorem parseDiffLines_count_and_offsets :
  (forall diff : string,
      length (parseDiffLines diff) = count_added (JS.split_nl diff)) /\
  (forall (diff : string) (pre : list string) (l1 : string) (mid : list string)
          (l2 : string) (post : list string),
      JS.split_nl diff = pre ++ l1 :: mid ++ l2 :: post ->
      is_added l1 = true -> is_added l2 = true ->
      Forall (fun l => is_added l = false /\ JS.startsWith l "@@" = false) mid ->
      exists (k : list changeLine) (a1 a2 : changeLine) (rest : list changeLine),
        parseDiffLines diff = k ++ a1 :: a2 :: rest /\
        length k = count_added pre /\
        lineNumber a2 = lineNumber a1 + 1 + Z.of_nat (length (List.filter advances mid))).
Proof.
  split.
  - intro diff. unfold parseDiffLines. apply parse_lines_length.
  - intros diff pre l1 mid l2 post Hs H1 H2 Hmid.
    unfold parseDiffLines. rewrite Hs, parse_lines_app.
    set (c := counter_after pre 0).
    assert (Hh1 : JS.startsWith l1 "@@" = false).
    { destruct (JS.startsWith l1 "@@") eqn:E; [|reflexivity].
      rewrite (hunk_line_not_added _ E) in H1. discriminate. }
    assert (Hh2 : JS.startsWith l2 "@@" = false).
    { destruct (JS.startsWith l2 "@@") eqn:E; [|reflexivity].
      rewrite (hunk_line_not_added _ E) in H2. discriminate. }
    cbn [parse_lines]. rewrite Hh1, H1.
    rewrite parse_lines_app.
    destruct (parse_lines_context mid (c + 1) Hmid) as [E1 E2].
    rewrite E1, E2. cbn [app parse_lines]. rewrite Hh2, H2.
    eexists (parse_lines pre 0), _, _, _. split; [reflexivity|].
    split; [apply parse_lines_length|]. simpl. lia.
Qed.

Lemma parseDiffLines_count_and_offsets_witness :
  (JS.split_nl diff_with_context = ["@@ -1,2 +1,3 @@"] ++ "+a" :: [" b"] ++ "+c" :: [] /\
   is_added "+a" = true /\ is_added "+c" = true /\
   Forall (fun l => is_added l = false /\ JS.startsWith l "@@" = false) [" b"]) /\
  exists (k : list changeLine) (a1 a2 : changeLine) (rest : list changeLine),
    parseDiffLines diff_with_context = k ++ a1 :: a2 :: rest /\
    length k = count_added ["@@ -1,2 +1,3 @@"] /\
    lineNumber a2 = lineNumber a1 + 1 + Z.of_nat (length (List.filter advances [" b"])).
Proof.
  split.
  - split; [reflexivity|split; [reflexivity|split; [reflexivity|]]].
    constructor; [split; reflexivity|constructor].
  - apply (proj2 parseDiffLines_count_and_offsets diff_with_context
             ["@@ -1,2 +1,3 @@"] "+a" [" b"] "+c" []); try reflexivity.
    constructor; [split; reflexivity|constructor].
Defined.

End DiffParsingFacts.

(** ** Grouping *)
Module GroupingFacts.
Import CodeProcessor.

Fixpoint consecutive (l : list changeLine) : Prop :=
  match l with
  | a :: ((b :: _) as t) => lineNumber b = lineNumber a + 1 /\ consecutive t
  | _ => True
  end.

Lemma consecutive_snoc (l : list changeLine) (x d : changeLine) :
  l <> [] -> consecutive l ->
  lineNumber x = lineNumber (List.last l d) + 1 ->
  consecutive (l ++ [x]).
Proof.
  induction l as [|a t IH]; intros Hne Hc Hx; [congruence|].
  destruct t as [|b t'].
  - simpl in *. split; [exact Hx|exact I].
  - simpl in Hc. destruct Hc as [Hab Hc].
    change ((a :: b :: t') ++ [x]) with (a :: ((b :: t') ++ [x])).
    assert (IH' := IH ltac:(discriminate) Hc Hx).
    simpl. split; [exact Hab|exact IH'].
Qed.

Lemma consecutive_nth (l : list changeLine) :
  consecutive l ->
  forall (i : nat) (a b : changeLine),
    nth_error l i = Some a -> nth_error l (S i) = Some b ->
    lineNumber b = lineNumber a + 1.
Proof.
  induction l as [|x t IH]; intros Hc i a b Ha Hb; [destruct i; discriminate|].
  destruct t as [|y t']; [destruct i; simpl in Hb; [discriminate|destruct i; discriminate]|].
  destruct Hc as [Hxy Hc].
  destruct i as [|i].
  - simpl in Ha, Hb. injection Ha as <-. injection Hb as <-. exact Hxy.
  - exact (IH Hc i a b Ha Hb).
Qed.

(** Both grouping modes only extend a group with the line right after its
    last line. *)
Lemma no_new_group_adjacent (maxLines : Z) (smart : bool) (cur last : changeLine) (g : group) :
  (if smart then shouldStartNewGroup maxLines cur last g
   else shouldStartNewGroupBasic cur last g) = false ->
  lineNumber cur = lineNumber last + 1.
Proof.
  destruct smart; unfold shouldStartNewGroup, shouldStartNewGroupBasic;
    destruct (Z.eqb (lineNumber cur) (lineNumber last + 1)) eqn:E; simpl;
    try discriminate; intros _; apply Z.eqb_eq; exact E.
Qed.

Lemma group_loop_consecutive (maxLines : Z) (smart : bool) (rest : list changeLine) :
  forall (groups : list group) (cur : group),
    (forall g, In g groups -> consecutive (glines g)) ->
    glines cur <> [] -> consecutive (glines cur) ->
    forall g, In g (group_loop maxLines smart rest groups cur) -> consecutive (glines g).
Proof.
  induction rest as [|l rest IH]; intros groups cur Hgs Hne Hc g Hin.
  - simpl in Hin. apply in_app_or in Hin as [Hin|[<-|[]]]; [apply Hgs; exact Hin|exact Hc].
  - simpl in Hin.
    destruct (if smart then shouldStartNewGroup maxLines l (List.last (glines cur) l) cur
              else shouldStartNewGroupBasic l (List.last (glines cur) l) cur) eqn:Hs.
    + refine (IH _ _ _ _ _ g Hin).
      * intros g' Hg'. apply in_app_or in Hg' as [Hg'|[<-|[]]]; [apply Hgs; exact Hg'|exact Hc].
      * discriminate.
      * exact I.
    + refine (IH _ _ Hgs _ _ g Hin).
      * simpl. destruct (glines cur); [congruence|discriminate].
      * apply (consecutive_snoc _ _ l Hne Hc).
        exact (no_new_group_adjacent _ _ _ _ _ Hs).
Qed.

(** In smart mode a group is only extended while it is below [maxLines]. *)
Lemma group_loop_size (maxLines : Z) (rest : list changeLine) :
  1 <= maxLines ->
  forall (groups : list group) (cur : group),
    (forall g, In g groups -> Z.of_nat (length (glines g)) <= maxLines) ->
    Z.of_nat (length (glines cur)) <= maxLines ->
    forall g, In g (group_loop maxLines true rest groups cur) ->
      Z.of_nat (length (glines g)) <= maxLines.
Proof.
  intros Hm. induction rest as [|l rest IH]; intros groups cur Hgs Hc g Hin.
  - simpl in Hin. apply in_app_or in Hin as [Hin|[<-|[]]]; [apply Hgs; exact Hin|exact Hc].
  - simpl in Hin.
    destruct (shouldStartNewGroup maxLines l (List.last (glines cur) l) cur) eqn:Hs.
    + refine (IH _ _ _ _ g Hin).
      * intros g' Hg'. apply in_app_or in Hg' as [Hg'|[<-|[]]]; [apply Hgs; exact Hg'|exact Hc].
      * simpl. lia.
    + refine (IH _ _ Hgs _ g Hin).
      unfold shouldStartNewGroup in Hs.
      destruct (negb _); [discriminate|].
      destruct (Z.geb (Z.of_nat (length (glines cur))) maxLines) eqn:Hge; [discriminate|].
      rewrite Z.geb_leb in Hge. apply Z.leb_gt in Hge.
      simpl. rewrite length_app. simpl. lia.
Qed.

(** Smart-mode groups never exceed a positive [maxLines]. *)
Lemma groupLines_smart_size (maxLines : Z) (changeLines : list changeLine) :
  1 <= maxLines ->
  forall g, In g (groupLines maxLines changeLines true) ->
    Z.of_nat (length (glines g)) <= maxLines.
Proof.
  intros Hm g Hin. destruct changeLines as [|l0 rest]; [destruct Hin|].
  apply (group_loop_size maxLines rest Hm [] (createNewGroup l0 1)); [intros ? []|simpl; lia|exact Hin].
Qed.

(** C7: in both grouping modes, within every produced group, consecutive
    lines have consecutive line numbers. *)
Theorem groupLines_adjacent (maxLines : Z) (useSmartGrouping : bool)
    (changeLines : list changeLine) (g : group) (i : nat) (a b : changeLine) :
  In g (groupLines maxLines changeLines useSmartGrouping) ->
  nth_error (glines g) i = Some a -> nth_error (glines g) (S i) = Some b ->
  lineNumber b = lineNumber a + 1.
Proof.
  intros Hin. apply consecutive_nth.
  destruct changeLines as [|l0 rest]; [destruct Hin|].
  apply (group_loop_consecutive maxLines useSmartGrouping rest [] (createNewGroup l0 1));
    [intros ? []|discriminate|exact I|exact Hin].
Qed.

Definition plain_lines (n : nat) : list changeLine :=
  map (fun k => mkLine "added" (Z.of_nat k) "x = 1;" "+x = 1;") (seq 1 n).

Lemma groupLines_adjacent_witness :
  In (mkGroup 1 (plain_lines 2) 1 2 "added") (groupLines 40 (plain_lines 2) true) /\
  nth_error (glines (mkGroup 1 (plain_lines 2) 1 2 "added")) 0 = Some (mkLine "added" 1 "x = 1;" "+x = 1;") /\
  nth_error (glines (mkGroup 1 (plain_lines 2) 1 2 "added")) 1 = Some (mkLine "added" 2 "x = 1;" "+x = 1;") /\
  lineNumber (mkLine "added" 2 "x = 1;" "+x = 1;") = lineNumber (mkLine "added" 1 "x = 1;" "+x = 1;") + 1.
Proof.
  split; [vm_compute; left; reflexivity|].
  split; [reflexivity|]. split; [reflexivity|].
  apply (groupLines_adjacent 40 true (plain_lines 2) (mkGroup 1 (plain_lines 2) 1 2 "added") 0);
    [vm_compute; left; reflexivity|reflexivity|reflexivity].
Defined.

(** C3 (code bug): with [MAX_LINES_PER_GROUP] unset the smart grouper's limit
    is 1000, not 40: 41 adjacent plain lines form a single group of 41 lines. *)
Theorem smart_grouping_default_limit_is_1000 :
  Config.maxLinesPerGroup None = 1000 /\
  map (fun g => length (glines g)) (optimizeLineGroups None (plain_lines 41)) = [41%nat].
Proof. split; vm_compute; reflexivity. Qed.

End GroupingFacts.

(** ** File-level format-only gate *)
Module FileFilterFacts.
Import FileFilter.

Definition mixed_diff : string :=
  DiffParsingFacts.unlines ["-a = 1"; "+a=1"; "-foo()"; "+bar()"].

(** C2 (code bug): a diff whose second added/removed pair really differs
    ([foo()] against [bar()]), and whose changed lines are neither all blank
    nor all comments, is still judged format-only, because one identical
    pair is enough for [hasOnlyNormalizedChanges]; the file is dropped. *)
Theorem format_only_on_single_matching_pair :
  FileFilter.parseDiffLines mixed_diff = (["a=1"; "bar()"], ["a = 1"; "foo()"]) /\
  JS.remove_ws "bar()" <> JS.remove_ws "foo()" /\
  hasOnlyWhitespaceChanges ["a=1"; "bar()"] ["a = 1"; "foo()"] = false /\
  hasOnlyCommentFormatChanges ["a=1"; "bar()"] ["a = 1"; "foo()"] = false /\
  isFormatOnlyChange mixed_diff = true /\
  isSignificantChange mixed_diff (Some "x.js") = false.
Proof.
  repeat split; vm_compute; try reflexivity; discriminate.
Qed.

End FileFilterFacts.

(** ** Comment overlap *)
Module CommentMatcherFacts.
Import CommentMatcher.

Definition positioned_general : existingComment :=
  mkComment "general" (Some "remove this comment") (Some 100) None None.

(** C5 (counterexample): a ["general"] comment that carries a line number
    outside the group's range does not overlap the group. *)
Lemma general_comment_with_line_not_overlapping :
  filePath positioned_general = "general" /\
  isCommentOverlapping positioned_general 1 5 = false.
Proof. split; reflexivity. Qed.

(** C5 (amended): for an existing comment whose [filePath] is ["general"]:
    without a position (no non-zero [startLine]/[endLine] pair and no
    non-zero [line]) it overlaps every group line range; with a position it
    is range-checked exactly like a comment on any other file: the answer is
    the same whatever the [filePath], namely whether its
    [startLine..endLine] range meets the group's (when both are non-zero),
    or else whether its [line] lies in the group's range. *)
Theorem general_comment_overlap_rule (comment : existingComment) (startLine endLine : Z) :
  filePath comment = "general" ->
  ((truthy (cstartLine comment) && truthy (cendLine comment))%bool = false ->
   truthy (line comment) = false ->
   isCommentOverlapping comment startLine endLine = true) /\
  ((truthy (cstartLine comment) && truthy (cendLine comment) || truthy (line comment))%bool = true ->
   forall p, isCommentOverlapping comment startLine endLine =
             isCommentOverlapping (mkComment p (note comment) (line comment)
                                     (cstartLine comment) (cendLine comment)) startLine endLine) /\
  (forall cs ce, cstartLine comment = Some cs -> cendLine comment = Some ce -> cs <> 0 -> ce <> 0 ->
     isCommentOverlapping comment startLine endLine = negb (Z.ltb endLine cs || Z.gtb startLine ce)%bool) /\
  (forall l, (truthy (cstartLine comment) && truthy (cendLine comment))%bool = false ->
     line comment = Some l -> l <> 0 ->
     isCommentOverlapping comment startLine endLine = (Z.geb l startLine && Z.leb l endLine)%bool).
Proof.
  intro Hf. split; [|split; [|split]].
  - intros Hr Hl. unfold isCommentOverlapping. rewrite Hr, Hl, Hf. reflexivity.
  - intros Hpos p. revert Hpos. unfold isCommentOverlapping. cbn [cstartLine cendLine line filePath].
    destruct (truthy (cstartLine comment) && truthy (cendLine comment))%bool; [reflexivity|].
    destruct (truthy (line comment)); [reflexivity|]. discriminate.
  - intros cs ce Hcs Hce Hn1 Hn2. unfold isCommentOverlapping. rewrite Hcs, Hce.
    unfold truthy. rewrite (proj2 (Z.eqb_neq _ _) Hn1), (proj2 (Z.eqb_neq _ _) Hn2).
    reflexivity.
  - intros l Hr Hl Hn. unfold isCommentOverlapping. rewrite Hr, Hl.
    unfold truthy. rewrite (proj2 (Z.eqb_neq _ _) Hn). reflexivity.
Qed.

Lemma general_comment_overlap_rule_witness :
  filePath positioned_general = "general" /\
  ((truthy (cstartLine positioned_general) && truthy (cendLine positioned_general))%bool = false ->
   truthy (line positioned_general) = false ->
   isCommentOverlapping positioned_general 1 5 = true) /\
  ((truthy (cstartLine positioned_general) && truthy (cendLine positioned_general) ||
    truthy (line positioned_general))%bool = true ->
   forall p, isCommentOverlapping positioned_general 1 5 =
             isCommentOverlapping (mkComment p (note positioned_general) (line positioned_general)
                                     (cstartLine positioned_general) (cendLine positioned_general)) 1 5) /\
  (forall cs ce, cstartLine positioned_general = Some cs -> cendLine positioned_general = Some ce ->
     cs <> 0 -> ce <> 0 ->
     isCommentOverlapping positioned_general 1 5 = negb (Z.ltb 5 cs || Z.gtb 1 ce)%bool) /\
  (forall l, (truthy (cstartLine positioned_general) && truthy (cendLine positioned_general))%bool = false ->
     line positioned_general = Some l -> l <> 0 ->
     isCommentOverlapping positioned_general 1 5 = (Z.geb l 1 && Z.leb l 5)%bool).
Proof.
  assert (H : filePath positioned_general = "general") by reflexivity.
  split; [exact H|exact (general_comment_overlap_rule positioned_general 1 5 H)].
Defined.

End CommentMatcherFacts.

(** ** Batch result parsing *)
Module BatchParserFacts.
Import CodeProcessor AIApiService.

(** What the numbered-line strategy makes of the response line [l] at
    position [i]: one result for [groups[i]], anchored at its last line and
    carrying the cleaned text, when [groups[i]] exists, [l] does not contain
    [PASS] and the cleaned text is neither empty nor [PASS]; nothing
    otherwise. *)
Definition line_yield (groups : list group) (i : nat) (l : string) (e : list reviewResult) : Prop :=
  (exists (g : group) (ll : changeLine),
     nth_error groups i = Some g /\ lastLine g = Some ll /\
     JS.includes l "PASS" = false /\ cleanReview l <> EmptyString /\
     cleanReview l <> "PASS" /\ e = [review_of g ll (cleanReview l)]) \/
  ((nth_error groups i = None \/ JS.includes l "PASS" = true \/
    cleanReview l = EmptyString \/ cleanReview l = "PASS") /\ e = []).

Lemma lastLine_nonempty (g : group) :
  glines g <> [] -> exists ll, lastLine g = Some ll.
Proof.
  intro Hne. unfold lastLine.
  destruct (nth_error (glines g) (length (glines g) - 1)) as [ll|] eqn:E; [eauto|].
  apply nth_error_None in E. destruct (glines g); [congruence|simpl in E; lia].
Qed.

Lemma nth_error_Forall {A : Type} (P : A -> Prop) (l : list A) (k : nat) (x : A) :
  Forall P l -> nth_error l k = Some x -> P x.
Proof.
  intros Hall. revert k. induction Hall as [|y l' Hy Hl' IH]; intros k Hk;
    [destruct k; discriminate|].
  destruct k as [|k]; [simpl in Hk; injection Hk as <-; exact Hy|exact (IH k Hk)].
Qed.

Lemma primary_yields (groups : list group) :
  Forall (fun g => glines g <> []) groups ->
  forall (lines : list string) (idx : nat) (acc : list reviewResult),
    exists per, List.length per = List.length lines /\
      primary groups lines idx acc = Done (acc ++ concat per) /\
      forall i l, nth_error lines i = Some l ->
        exists e, nth_error per i = Some e /\ line_yield groups (idx + i) l e.
Proof.
  intros Hne lines. induction lines as [|line rest IH]; intros idx acc.
  - exists []. split; [reflexivity|split; [rewrite app_nil_r; reflexivity|]].
    intros i l Hl. destruct i; discriminate.
  - assert (Hstep : exists e, line_yield groups idx line e /\
              primary groups (line :: rest) idx acc = primary groups rest (S idx) (acc ++ e)).
    { cbn [primary]. destruct (JS.includes line "PASS") eqn:Hp.
      - exists []. rewrite app_nil_r.
        split; [right; split; [right; left; exact Hp|reflexivity]|reflexivity].
      - destruct (nth_error groups idx) as [g|] eqn:Hg.
        + destruct ((negb (String.eqb (cleanReview line) EmptyString) &&
                     negb (String.eqb (cleanReview line) "PASS"))%bool) eqn:Hc.
          * destruct (lastLine_nonempty g (nth_error_Forall _ _ _ _ Hne Hg)) as [ll Hll].
            rewrite Hll. exists [review_of g ll (cleanReview line)]. split; [|reflexivity].
            apply andb_true_iff in Hc as [Hc1 Hc2].
            apply negb_true_iff, String.eqb_neq in Hc1.
            apply negb_true_iff, String.eqb_neq in Hc2.
            left. exists g, ll.
            split; [exact Hg|split; [exact Hll|split; [exact Hp|split; [exact Hc1|split; [exact Hc2|reflexivity]]]]].
          * exists []. rewrite app_nil_r. split; [|reflexivity]. right. split; [|reflexivity].
            right. right.
            apply andb_false_iff in Hc as [Hc|Hc]; apply negb_false_iff, String.eqb_eq in Hc;
              [left|right]; exact Hc.
        + exists []. rewrite app_nil_r.
          split; [right; split; [left; exact Hg|reflexivity]|reflexivity]. }
    destruct Hstep as (e & Hy & Hp).
    destruct (IH (S idx) (acc ++ e)) as (per & Hlen & Hrun & Hper).
    exists (e :: per). split; [simpl; rewrite Hlen; reflexivity|split].
    + rewrite Hp, Hrun. cbn [concat]. rewrite app_assoc. reflexivity.
    + intros [|i] l Hl.
      * simpl in Hl. injection Hl as <-. exists e. rewrite Nat.add_0_r. split; [reflexivity|exact Hy].
      * simpl in Hl. destruct (Hper i l Hl) as (e' & He' & Hy'). exists e'.
        rewrite Nat.add_succ_r. split; [exact He'|exact Hy'].
Qed.

Definition one_line_group (n : Z) (id : nat) : group :=
  createNewGroup (mkLine "added" n "x" "+x") id.

(** C4 (counterexample): the numbered entry [1. Fix typo] has captured text
    [Fix typo] of 8 characters, yet it yields a result for its group. *)
Lemma short_entry_not_skipped :
  JS.length (cleanReview "1. Fix typo") = 8%nat /\
  primary [one_line_group 3 1] ["1. Fix typo"] 0 [] =
    Done [review_of (one_line_group 3 1) (mkLine "added" 3 "x" "+x") "Fix typo"] /\
  parseBatchReviewResultFast [one_line_group 3 1] "1. Fix typo" =
    [review_of (one_line_group 3 1) (mkLine "added" 3 "x" "+x") "Fix typo"].
Proof. split; [|split]; vm_compute; reflexivity. Qed.

(** C4 (amended): for groups with lines, the numbered-line strategy runs to
    the end and its results are, in order, the concatenation over the
    response lines of what each line yields: the line at position [i]
    yields exactly one result, for [groups[i]], anchored at its last line and
    carrying the cleaned text (leading number removed, trimmed), when
    [groups[i]] exists, the line does not contain [PASS] and the cleaned text
    is neither empty nor [PASS]; otherwise it yields none.  No condition
    involves the length of the text. *)
Theorem primary_strategy_entries (groups : list group) (lines : list string) :
  Forall (fun g => glines g <> []) groups ->
  exists per, List.length per = List.length lines /\
    primary groups lines 0 [] = Done (concat per) /\
    forall i l, nth_error lines i = Some l ->
      exists e, nth_error per i = Some e /\ line_yield groups i l e.
Proof.
  intro Hne. destruct (primary_yields groups Hne lines 0 []) as (per & Hlen & Hrun & Hper).
  exists per. split; [exact Hlen|split; [exact Hrun|exact Hper]].
Qed.

Lemma primary_strategy_entries_witness :
  Forall (fun g => glines g <> []) [one_line_group 3 1; one_line_group 5 2] /\
  exists per, List.length per = List.length ["1. Fix typo"; "2. PASS"; "3. Rename x"] /\
    primary [one_line_group 3 1; one_line_group 5 2] ["1. Fix typo"; "2. PASS"; "3. Rename x"] 0 [] =
      Done (concat per) /\
    forall i l, nth_error ["1. Fix typo"; "2. PASS"; "3. Rename x"] i = Some l ->
      exists e, nth_error per i = Some e /\
        line_yield [one_line_group 3 1; one_line_group 5 2] i l e.
Proof.
  assert (H : Forall (fun g => glines g <> []) [one_line_group 3 1; one_line_group 5 2])
    by (constructor; [discriminate|constructor; [discriminate|constructor]]).
  split; [exact H|].
  exact (primary_strategy_entries _ ["1. Fix typo"; "2. PASS"; "3. Rename x"] H).
Defined.

(** A single response line that is not numbered, not [PASS] and longer than
    ten characters is given, through the numbered-line strategy, to the
    first group only. *)
Lemma single_line_to_first_group (g1 : group) (gs : list group) (ll : changeLine) (t : string) :
  lastLine g1 = Some ll ->
  nonblank_lines t = [t] -> JS.includes t "PASS" = false ->
  String.eqb (JS.trim t) EmptyString = false -> Nat.ltb 10 (JS.length t) = true ->
  String.eqb (cleanReview t) EmptyString = false -> String.eqb (cleanReview t) "PASS" = false ->
  parseBatchReviewResultFast (g1 :: gs) t = [review_of g1 ll (cleanReview t)].
Proof.
  intros Hll Hlines Hp Ht Hlen Hc1 Hc2.
  unfold parseBatchReviewResultFast. cbv zeta. rewrite Hlines.
  cbn [forallb primary nth_error]. rewrite Hp, Ht, Hlen, Hc1, Hc2. cbn [andb negb].
  rewrite Hll. reflexivity.
Qed.

(** C8: three groups and the response [Consider renaming this variable]:
    exactly one result, carrying the full response and anchored at group 1's
    last line. *)
Theorem consider_renaming_scenario (g1 g2 g3 : group) (ll : changeLine) :
  lastLine g1 = Some ll ->
  parseBatchReviewResultFast [g1; g2; g3] "Consider renaming this variable" =
    [review_of g1 ll "Consider renaming this variable"].
Proof.
  intro Hll.
  change "Consider renaming this variable" with (cleanReview "Consider renaming this variable") at 2.
  apply single_line_to_first_group; [exact Hll|..]; vm_compute; reflexivity.
Qed.

Lemma consider_renaming_scenario_witness :
  lastLine (one_line_group 3 1) = Some (mkLine "added" 3 "x" "+x") /\
  parseBatchReviewResultFast [one_line_group 3 1; one_line_group 7 2; one_line_group 9 3]
    "Consider renaming this variable" =
    [review_of (one_line_group 3 1) (mkLine "added" 3 "x" "+x") "Consider renaming this variable"].
Proof.
  split; [reflexivity|].
  apply consider_renaming_scenario. reflexivity.
Defined.

End BatchParserFacts.

(** ** Review cache *)
Module CacheFacts.
Import AIApiService CacheManager.

Lemma cacheReview_lookup (c : reviewCache) (key : string) (rs : list reviewResult) (t : Z) :
  cacheReview c key rs t !! key = Some (mkEntry rs t).
Proof.
  unfold cacheReview.
  destruct (Nat.ltb Config.cache_maxSize (size (<[key:=mkEntry rs t]> c))).
  - unfold cleanupCache. apply map_lookup_filter_Some_2; [apply lookup_insert_eq|].
    simpl. unfold Config.cache_expiry. lia.
  - apply lookup_insert_eq.
Qed.

(** C6: storing [reviews] under [key] at time [t1] and reading [key] at time
    [t2] returns exactly [reviews] when less than the expiry (24 h) has
    elapsed, and [null] otherwise. *)
Theorem cache_round_trip (c : reviewCache) (key : string) (rs : list reviewResult) (t1 t2 : Z) :
  fst (getCachedReview (cacheReview c key rs t1) key t2) =
    if Z.ltb (t2 - t1) Config.cache_expiry then Some rs else None.
Proof.
  unfold getCachedReview. rewrite cacheReview_lookup. simpl.
  destruct (Z.ltb (t2 - t1) Config.cache_expiry); reflexivity.
Qed.

End CacheFacts.

(** ** Caching in the orchestrator *)
Module OrchestratorCacheFacts.
Import CodeProcessor AIApiService CacheManager AICodeReviewer.

(** Every entry of the cache holds a non-empty review list. *)
Definition cache_ok (c : reviewCache) : Prop :=
  forall k e, c !! k = Some e -> reviews e <> [].

Lemma cache_ok_empty : cache_ok ∅.
Proof. intros k e H. rewrite lookup_empty in H. discriminate. Qed.

Lemma cache_ok_delete (c : reviewCache) (k : string) :
  cache_ok c -> cache_ok (delete k c).
Proof.
  intros Hc k' e H. apply lookup_delete_Some in H as [_ H]. exact (Hc k' e H).
Qed.

Lemma getCachedReview_ok (c : reviewCache) (k : string) (t : Z) :
  cache_ok c -> cache_ok (snd (getCachedReview c k t)).
Proof.
  intro Hc. unfold getCachedReview.
  destruct (c !! k) as [e|]; [destruct (Z.ltb _ _)|]; simpl;
    [exact Hc|apply cache_ok_delete; exact Hc|apply cache_ok_delete; exact Hc].
Qed.

Lemma getCachedReview_hit_nonempty (c c' : reviewCache) (k : string) (t : Z) (r : list reviewResult) :
  cache_ok c -> getCachedReview c k t = (Some r, c') -> r <> [].
Proof.
  intros Hc. unfold getCachedReview.
  destruct (c !! k) as [e|] eqn:E; [destruct (Z.ltb _ _)|]; intro H; try discriminate.
  injection H as <- _. exact (Hc k e E).
Qed.

Lemma cacheReview_ok (c : reviewCache) (k : string) (rs : list reviewResult) (t : Z) :
  cache_ok c -> rs <> [] -> cache_ok (cacheReview c k rs t).
Proof.
  intros Hc Hrs.
  assert (Hi : cache_ok (<[k := mkEntry rs t]> c)).
  { intros k' e H. apply lookup_insert_Some in H as [[_ <-]|[_ H]]; [exact Hrs|exact (Hc k' e H)]. }
  unfold cacheReview. destruct (Nat.ltb _ _); [|exact Hi].
  intros k' e H. unfold cleanupCache in H.
  apply map_lookup_filter_Some in H as [H _]. exact (Hi k' e H).
Qed.

Section WithModel.
Variable processBatchParallel : string -> list group -> nat -> exn + list reviewResult.
Variable processGroupsIndividually : string -> list group -> list reviewResult.

Lemma processBatchWithFallback_ok (fileName : string) (batch : list group) (now : Z) (st : orchState) :
  cache_ok (cache st) ->
  cache_ok (cache (snd (processBatchWithFallback processBatchParallel processGroupsIndividually
                          fileName batch now st))).
Proof.
  intro Hc. unfold processBatchWithFallback.
  assert (H1 := getCachedReview_ok (cache st) (generateCacheKey fileName batch) now Hc).
  destruct (getCachedReview (cache st) (generateCacheKey fileName batch) now) as [[rs|] c1].
  - exact H1.
  - destruct (processBatchParallel fileName batch (submissions st)) as [e|rs]; [exact H1|].
    destruct (Nat.ltb 0 (length rs)) eqn:L; [|exact H1].
    simpl. apply cacheReview_ok; [exact H1|].
    intros ->. discriminate.
Qed.

(** A submission that misses the cache and returns no reviews leaves no
    entry for the batch's key. *)
Lemma empty_outcome_not_cached (fileName : string) (batch : list group) (now : Z) (st : orchState) :
  fst (getCachedReview (cache st) (generateCacheKey fileName batch) now) = None ->
  processBatchParallel fileName batch (submissions st) = inr [] ->
  processBatchWithFallback processBatchParallel processGroupsIndividually fileName batch now st =
    ([], mkState (delete (generateCacheKey fileName batch) (cache st)) (S (submissions st))).
Proof.
  intros Hmiss Hout. unfold processBatchWithFallback.
  unfold getCachedReview in *.
  destruct (cache st !! generateCacheKey fileName batch) as [e|];
    [destruct (Z.ltb _ _); [discriminate|]|]; simpl; rewrite Hout; reflexivity.
Qed.

Lemma repeat_empty_resubmits (fileName : string) (batch : list group) (times : list Z) :
  forall st : orchState,
    cache st !! generateCacheKey fileName batch = None ->
    (forall i, (i < length times)%nat ->
               processBatchParallel fileName batch (submissions st + i)%nat = inr []) ->
    repeat_batch processBatchParallel processGroupsIndividually fileName batch times st =
      (map (fun _ => []) times,
       snd (repeat_batch processBatchParallel processGroupsIndividually fileName batch times st)) /\
    submissions (snd (repeat_batch processBatchParallel processGroupsIndividually
                        fileName batch times st)) = (submissions st + length times)%nat /\
    cache (snd (repeat_batch processBatchParallel processGroupsIndividually
                  fileName batch times st)) !! generateCacheKey fileName batch = None.
Proof.
  induction times as [|t ts IH]; intros st Hnone Hout.
  - simpl. split; [reflexivity|split; [lia|exact Hnone]].
  - cbn [repeat_batch].
    rewrite empty_outcome_not_cached.
    2: { unfold getCachedReview. rewrite Hnone. reflexivity. }
    2: { rewrite <- (Nat.add_0_r (submissions st)). apply Hout. simpl. lia. }
    set (st1 := mkState (delete (generateCacheKey fileName batch) (cache st)) (S (submissions st))).
    destruct (IH st1) as (E1 & E2 & E3).
    + simpl. apply lookup_delete_eq.
    + intros i Hi. simpl. rewrite <- Nat.add_succ_r. apply Hout. simpl. lia.
    + destruct (repeat_batch processBatchParallel processGroupsIndividually fileName batch ts st1)
        as [rs st2] eqn:R.
      simpl in E1, E2, E3 |- *. injection E1 as ->.
      split; [reflexivity|split; [simpl in E2; lia|exact E3]].
Qed.

End WithModel.

(** C10: the orchestrator only caches non-empty review lists: starting from
    the empty cache every reachable cache holds only non-empty lists, so every
    cache hit is non-empty; and a batch whose model outcome is an empty list
    is never cached, so each identical later invocation is submitted to the
    model again. *)
Theorem only_nonempty_reviews_cached
    (processBatchParallel : string -> list group -> nat -> exn + list reviewResult)
    (processGroupsIndividually : string -> list group -> list reviewResult) :
  cache_ok ∅ /\
  (forall (fileName : string) (batch : list group) (now : Z) (st : orchState),
      cache_ok (cache st) ->
      cache_ok (cache (snd (processBatchWithFallback processBatchParallel processGroupsIndividually
                              fileName batch now st)))) /\
  (forall (c c' : reviewCache) (k : string) (t : Z) (r : list reviewResult),
      cache_ok c -> getCachedReview c k t = (Some r, c') -> r <> []) /\
  (forall (fileName : string) (batch : list group) (now : Z) (st : orchState),
      fst (getCachedReview (cache st) (generateCacheKey fileName batch) now) = None ->
      processBatchParallel fileName batch (submissions st) = inr [] ->
      processBatchWithFallback processBatchParallel processGroupsIndividually fileName batch now st =
        ([], mkState (delete (generateCacheKey fileName batch) (cache st)) (S (submissions st)))) /\
  (forall (fileName : string) (batch : list group) (times : list Z) (st : orchState),
      cache st !! generateCacheKey fileName batch = None ->
      (forall i, (i < length times)%nat ->
                 processBatchParallel fileName batch (submissions st + i)%nat = inr []) ->
      fst (repeat_batch processBatchParallel processGroupsIndividually fileName batch times st) =
        map (fun _ => []) times /\
      submissions (snd (repeat_batch processBatchParallel processGroupsIndividually
                          fileName batch times st)) = (submissions st + length times)%nat).
Proof.
  split; [exact cache_ok_empty|].
  split; [intros; apply processBatchWithFallback_ok; assumption|].
  split; [intros c c' k t r Hc H; exact (getCachedReview_hit_nonempty c c' k t r Hc H)|].
  split; [intros; apply empty_outcome_not_cached; assumption|].
  intros fileName batch times st Hnone Hout.
  destruct (repeat_empty_resubmits processBatchParallel processGroupsIndividually
              fileName batch times st Hnone Hout) as (E1 & E2 & _).
  rewrite E1 at 1. split; [reflexivity|exact E2].
Qed.

Lemma only_nonempty_reviews_cached_witness :
  fst (repeat_batch (fun _ _ _ => inr []) (fun _ _ => []) "a.js" [] [1; 2; 3]
         (mkState ∅ 0)) = [[]; []; []] /\
  submissions (snd (repeat_batch (fun _ _ _ => inr []) (fun _ _ => []) "a.js" [] [1; 2; 3]
                      (mkState ∅ 0))) = 3%nat.
Proof.
  apply (proj2 (proj2 (proj2 (proj2 (only_nonempty_reviews_cached
                                       (fun _ _ _ => inr []) (fun _ _ => [])))))
           "a.js" [] [1; 2; 3] (mkState ∅ 0)).
  - apply lookup_empty.
  - intros i _. reflexivity.
Defined.

End OrchestratorCacheFacts.

(** ** Failure isolation between files *)
Module FileIsolationFacts.
Import AIApiService AICodeReviewer.

Lemma chunk_aux_concat {A : Type} (n : nat) :
  (0 < n)%nat ->
  forall (fuel : nat) (l : list A), (length l <= fuel)%nat -> concat (chunk_aux fuel n l) = l.
Proof.
  intros Hn fuel. induction fuel as [|fuel IH]; intros l Hl.
  - destruct l; [reflexivity|simpl in Hl; lia].
  - destruct l as [|x l']; [reflexivity|].
    cbn [chunk_aux concat]. rewrite IH.
    + apply firstn_skipn.
    + rewrite length_skipn. simpl in Hl |- *. lia.
Qed.

Lemma chunkArray_concat {A : Type} (l : list A) (size : positive) :
  concat (chunkArray l size) = l.
Proof. apply chunk_aux_concat; [lia|lia]. Qed.

Lemma flat_map_concat {A B : Type} (f : A -> list B) (ls : list (list A)) :
  flat_map (flat_map f) ls = flat_map f (concat ls).
Proof.
  induction ls as [|l ls IH]; [reflexivity|].
  simpl. rewrite flat_map_app, IH. reflexivity.
Qed.

Section WithModel.
Variable generateFileReview : codeChange -> exn + list reviewResult.
Variable filterMeaningfulReviews : list reviewResult -> exn + list reviewResult.
Variable maxConcurrentFiles : positive.

(** What one file contributes to the overall result. *)
Definition file_contribution (c : codeChange) : list fileReviewResult :=
  match processSingleFile generateFileReview filterMeaningfulReviews c with
  | Some v => [v]
  | None => []
  end.

Definition significant (c : codeChange) : bool :=
  FileFilter.isSignificantChange (diff c) (fileNameOf c).

Lemma collect_settled (chunk : list codeChange) :
  collect_fulfilled (map (settleSingleFile generateFileReview filterMeaningfulReviews) chunk) =
  flat_map file_contribution chunk.
Proof.
  induction chunk as [|c cs IH]; [reflexivity|].
  simpl. rewrite IH. unfold settleSingleFile, file_contribution.
  destruct (processSingleFile _ _ c); reflexivity.
Qed.

Lemma generateCodeReview_spec (changes : list codeChange) :
  generateCodeReview generateFileReview filterMeaningfulReviews maxConcurrentFiles changes =
  inr (flat_map file_contribution (List.filter significant changes)).
Proof.
  unfold generateCodeReview, processFilesConcurrently. fold significant.
  assert (E : flat_map (fun chunk => collect_fulfilled
                         (map (settleSingleFile generateFileReview filterMeaningfulReviews) chunk))
                       (chunkArray (List.filter significant changes) maxConcurrentFiles) =
              flat_map file_contribution (List.filter significant changes)).
  { rewrite <- (chunkArray_concat (List.filter significant changes) maxConcurrentFiles) at 2.
    rewrite <- flat_map_concat. apply flat_map_ext. intro chunk. apply collect_settled. }
  destruct (List.filter significant changes) as [|c cs] eqn:F; [reflexivity|].
  rewrite E. reflexivity.
Qed.

(** C9: when [generateFileReview] rejects for one change, [generateCodeReview]
    still returns normally ([inr]); that change contributes no file review and
    the result is the concatenation of what every other change contributes on
    its own, the same as if the failing change were absent. *)
Theorem failing_file_isolated (pre post : list codeChange) (c : codeChange) (e : exn) :
  generateFileReview c = inl e ->
  file_contribution c = [] /\
  generateCodeReview generateFileReview filterMeaningfulReviews maxConcurrentFiles (pre ++ c :: post) =
    inr (flat_map file_contribution (List.filter significant pre) ++
         flat_map file_contribution (List.filter significant post)) /\
  generateCodeReview generateFileReview filterMeaningfulReviews maxConcurrentFiles (pre ++ c :: post) =
  generateCodeReview generateFileReview filterMeaningfulReviews maxConcurrentFiles (pre ++ post).
Proof.
  intro He.
  assert (Hc : file_contribution c = []).
  { unfold file_contribution, processSingleFile. rewrite He. reflexivity. }
  assert (Hsplit : flat_map file_contribution (List.filter significant (pre ++ c :: post)) =
                   flat_map file_contribution (List.filter significant pre) ++
                   flat_map file_contribution (List.filter significant post)).
  { rewrite List.filter_app, flat_map_app. simpl.
    destruct (significant c); simpl; rewrite ?Hc; reflexivity. }
  split; [exact Hc|].
  rewrite !generateCodeReview_spec, Hsplit, List.filter_app, flat_map_app.
  split; reflexivity.
Qed.

End WithModel.

Definition sample_review : reviewResult := mkReview 1 "x" "Use a constant here instead" 1 true 1.

Definition sample_generate (c : codeChange) : exn + list reviewResult :=
  match new_path c with
  | Some p => if String.eqb p "bad.js" then inl "network error" else inr [sample_review]
  | None => inr [sample_review]
  end.

Lemma failing_file_isolated_witness :
  sample_generate (mkChange "+x" (Some "bad.js") None) = inl "network error" /\
  file_contribution sample_generate inr (mkChange "+x" (Some "bad.js") None) = [] /\
  generateCodeReview sample_generate inr 2
    ([mkChange "+x" (Some "a.js") None] ++ mkChange "+x" (Some "bad.js") None ::
     [mkChange "+y" (Some "b.js") None]) =
    inr (flat_map (file_contribution sample_generate inr)
           (List.filter significant [mkChange "+x" (Some "a.js") None]) ++
         flat_map (file_contribution sample_generate inr)
           (List.filter significant [mkChange "+y" (Some "b.js") None])) /\
  generateCodeReview sample_generate inr 2
    ([mkChange "+x" (Some "a.js") None] ++ mkChange "+x" (Some "bad.js") None ::
     [mkChange "+y" (Some "b.js") None]) =
  generateCodeReview sample_generate inr 2
    ([mkChange "+x" (Some "a.js") None] ++ [mkChange "+y" (Some "b.js") None]).
Proof.
  split; [reflexivity|].
  apply (failing_file_isolated sample_generate inr 2 [mkChange "+x" (Some "a.js") None]
           [mkChange "+y" (Some "b.js") None] (mkChange "+x" (Some "bad.js") None)
           "network error").
  reflexivity.
Defined.

End FileIsolationFacts.

(** ** Chunking *)
Module ChunkFacts.
Import AICodeReviewer.

Lemma chunk_aux_nil {A : Type} (fuel k : nat) : @chunk_aux A fuel k [] = [].
Proof. destruct fuel; reflexivity. Qed.

Lemma chunk_aux_shape {A : Type} (k : nat) :
  (0 < k)%nat ->
  forall (fuel : nat) (l : list A), (length l <= fuel)%nat ->
    let chunks := chunk_aux fuel k l in
    Forall (fun ch => (0 < length ch <= k)%nat) chunks /\
    (forall i ch, nth_error chunks i = Some ch -> (S i < length chunks)%nat -> length ch = k) /\
    (length l <= length chunks * k)%nat /\ (length chunks * k < length l + k)%nat.
Proof.
  intros Hk fuel. induction fuel as [|fuel IH]; intros l Hl; cbv zeta.
  - destruct l; [|simpl in Hl; lia].
    split; [constructor|split; [intros [|i] ch H; discriminate|simpl; lia]].
  - destruct l as [|x l']; [split; [constructor|split; [intros [|i] ch H; discriminate|simpl; lia]]|].
    cbn [chunk_aux].
    set (n := length (x :: l')).
    assert (Hfirst : length (firstn k (x :: l')) = Nat.min k n) by apply length_firstn.
    destruct (Nat.le_gt_cases k n) as [Hkn|Hkn].
    + assert (Hrest : (length (skipn k (x :: l')) <= fuel)%nat).
      { rewrite length_skipn. subst n. simpl in Hl |- *. lia. }
      destruct (IH _ Hrest) as (HF & Hnth & Hlo & Hhi).
      rewrite length_skipn in Hlo, Hhi. fold n in Hlo, Hhi.
      split; [|split; [|cbn [length]; rewrite Nat.mul_succ_l; lia]].
      * constructor; [rewrite Hfirst; lia|exact HF].
      * intros [|i] ch H Hi.
        -- injection H as <-. rewrite Hfirst. lia.
        -- apply (Hnth i ch H). simpl in Hi. lia.
    + assert (Hs : skipn k (x :: l') = []) by (apply skipn_all2; fold n; lia).
      rewrite Hs, chunk_aux_nil.
      split; [|split].
      * constructor; [rewrite Hfirst; subst n; simpl in *; lia|constructor].
      * intros [|i] ch H Hi; simpl in Hi; lia.
      * simpl. fold n. lia.
Qed.

(** [CodeProcessor.chunkArray(array, size)] splits [array] into consecutive
    chunks whose concatenation is [array]: every chunk has between 1 and
    [size] elements, every chunk but the last has exactly [size], and there
    are [ceil(length / size)] chunks. *)
Theorem chunkArray_partition {A : Type} (array : list A) (size : positive) :
  let chunks := chunkArray array size in
  concat chunks = array /\
  Forall (fun ch => (0 < length ch <= Pos.to_nat size)%nat) chunks /\
  (forall i ch, nth_error chunks i = Some ch -> (S i < length chunks)%nat ->
                length ch = Pos.to_nat size) /\
  length chunks = ((length array + Pos.to_nat size - 1) / Pos.to_nat size)%nat.
Proof.
  cbv zeta.
  destruct (chunk_aux_shape (Pos.to_nat size) ltac:(lia) (length array) array (le_n _))
    as (HF & Hnth & Hlo & Hhi).
  fold (chunkArray array size) in HF, Hnth, Hlo, Hhi.
  split; [apply FileIsolationFacts.chunkArray_concat|].
  split; [exact HF|split; [exact Hnth|]].
  apply (Nat.div_unique _ _ _ (length array + Pos.to_nat size - 1 -
                               Pos.to_nat size * length (chunkArray array size))).
  - rewrite Nat.mul_comm. lia.
  - rewrite Nat.mul_comm. lia.
Qed.

End ChunkFacts.

(** ** Sub-batching in [processBatchParallel] *)
Module BatchSplitFacts.
Import CodeProcessor AIApiService AICodeReviewer ReviewPipeline.

Lemma half_up_bounds (n : nat) : (3 < n)%nat -> (2 <= half_up n)%nat /\ (n <= 2 * half_up n)%nat.
Proof.
  intro Hn. unfold half_up.
  pose proof (Nat.div_mod (n + 1) 2 ltac:(lia)) as Hd.
  pose proof (Nat.mod_upper_bound (n + 1) 2 ltac:(lia)) as Hm.
  lia.
Qed.

(** [processBatchParallel] sends to the model exactly the groups of the
    batch that have no similar existing comment, in their order, in at most
    two [generateBatchReview] requests, none of them empty, each of at most
    [max(3, ceil(n / 2))] groups where [n] is the number of such groups; its
    result is the concatenation of the requests' results. *)
Theorem processBatchParallel_requests
    (existingComments : list CommentMatcher.existingComment) (fileName : string)
    (batch : list group) :
  let filteredGroups :=
    List.filter (fun g => negb (CommentSimilarity.hasSimilarComment existingComments fileName
                                  (startLine g) (endLine g) (glines g))) batch in
  exists requests : list (list group),
    (forall generateBatchReview : string -> list group -> list reviewResult,
        processBatchParallel generateBatchReview existingComments fileName batch =
        flat_map (generateBatchReview fileName) requests) /\
    concat requests = filteredGroups /\
    (length requests <= 2)%nat /\
    Forall (fun r => r <> [] /\ (length r <= Nat.max 3 (half_up (length filteredGroups)))%nat)
           requests /\
    (forall r g, In r requests -> In g r ->
       CommentSimilarity.hasSimilarComment existingComments fileName
         (startLine g) (endLine g) (glines g) = false).
Proof.
  cbv zeta.
  set (filteredGroups := List.filter _ batch).
  assert (Hsent : forall requests, concat requests = filteredGroups ->
            forall r g, In r requests -> In g r ->
              CommentSimilarity.hasSimilarComment existingComments fileName
                (startLine g) (endLine g) (glines g) = false).
  { intros requests Hc r g Hr Hg.
    assert (Hin : In g filteredGroups) by (rewrite <- Hc; apply in_concat; eauto).
    subst filteredGroups. apply filter_In in Hin as [_ Hn].
    apply negb_true_iff in Hn. exact Hn. }
  unfold processBatchParallel. fold filteredGroups.
  destruct filteredGroups as [|g0 gs] eqn:Ef.
  - exists []. split; [reflexivity|]. split; [reflexivity|].
    split; [simpl; lia|split; [constructor|intros r g []]].
  - destruct (Nat.leb (length (g0 :: gs)) 3) eqn:Hle.
    + exists [g0 :: gs]. split; [intro; simpl; rewrite app_nil_r; reflexivity|].
      split; [simpl; rewrite app_nil_r; reflexivity|].
      split; [simpl; lia|split].
      * constructor; [|constructor]. split; [discriminate|]. apply Nat.leb_le in Hle. lia.
      * apply Hsent. simpl. rewrite app_nil_r. reflexivity.
    + apply Nat.leb_gt in Hle.
      set (n := length (g0 :: gs)) in *.
      destruct (half_up_bounds n Hle) as [Hk2 Hkn].
      set (requests := chunkArray (g0 :: gs) (Pos.of_nat (half_up n))).
      assert (Hk : Pos.to_nat (Pos.of_nat (half_up n)) = half_up n) by (apply Nat2Pos.id; lia).
      destruct (ChunkFacts.chunk_aux_shape (half_up n) ltac:(lia) n (g0 :: gs) (le_n _))
        as (HF & _ & _ & Hhi).
      assert (Hreq : requests = chunk_aux n (half_up n) (g0 :: gs))
        by (subst requests; unfold chunkArray; rewrite Hk; reflexivity).
      rewrite <- Hreq in HF, Hhi.
      exists requests. split; [intro; reflexivity|].
      assert (Hc : concat requests = g0 :: gs) by apply FileIsolationFacts.chunkArray_concat.
      split; [exact Hc|].
      split.
      * destruct (le_gt_dec (length requests) 2) as [H2|H2]; [exact H2|exfalso].
        assert (3 * half_up n <= length requests * half_up n)%nat
          by (apply Nat.mul_le_mono_r; lia).
        fold n in Hhi. lia.
      * split; [|apply Hsent; exact Hc].
        eapply Forall_impl; [exact HF|]. intros r [H1 H2]. split.
        -- intros ->. simpl in H1. lia.
        -- lia.
Qed.

End BatchSplitFacts.

(** ** Similar existing comments *)
Module SimilarCommentFacts.
Import CodeProcessor CommentMatcher CommentSimilarity.

Definition relevant (fileName : string) (comment : existingComment) : bool :=
  (String.eqb (filePath comment) fileName || String.eqb (filePath comment) "general")%bool.

Lemma hasSimilarComment_eq (cs : list existingComment) (fileName : string)
    (startLine endLine : Z) (lines : list changeLine) :
  hasSimilarComment cs fileName startLine endLine lines =
  existsb (fun comment => (isCommentOverlapping comment startLine endLine &&
                           isCommentSimilar comment lines)%bool)
          (List.filter (relevant fileName) cs).
Proof. destruct cs; reflexivity. Qed.

(** [hasSimilarComment] only answers [true] because of an existing comment
    on the same file or a ["general"] one, that overlaps the group's line
    range and whose note is non-blank and mentions one of the common-issue
    keywords (after lower-casing). *)
Theorem hasSimilarComment_sound (existingComments : list existingComment) (fileName : string)
    (startLine endLine : Z) (lines : list changeLine) :
  hasSimilarComment existingComments fileName startLine endLine lines = true ->
  exists comment n,
    In comment existingComments /\
    (filePath comment = fileName \/ filePath comment = "general") /\
    isCommentOverlapping comment startLine endLine = true /\
    note comment = Some n /\ JS.trim n <> EmptyString /\
    existsb (JS.includes (JS.toLowerCase n)) commonIssues = true.
Proof.
  rewrite hasSimilarComment_eq. intro H.
  apply existsb_exists in H as (comment & Hin & H).
  apply filter_In in Hin as [Hin Hrel].
  apply andb_true_iff in H as [Hov Hsim].
  unfold isCommentSimilar in Hsim.
  destruct (note comment) as [n|] eqn:En; [|discriminate].
  destruct (String.eqb (JS.trim n) EmptyString) eqn:Et; [discriminate|].
  destruct (existsb (JS.includes (JS.toLowerCase n)) commonIssues) eqn:Ec; [|discriminate].
  exists comment, n. split; [exact Hin|]. split.
  - unfold relevant in Hrel. apply orb_true_iff in Hrel as [Hr|Hr];
      apply String.eqb_eq in Hr; [left|right]; exact Hr.
  - split; [exact Hov|split; [exact En|split; [|exact Ec]]].
    apply String.eqb_neq. exact Et.
Qed.

Lemma hasSimilarComment_sound_witness :
  hasSimilarComment [mkComment "general" (Some "Remove this comment") None None None] "a.js" 3 4
    [mkLine "added" 3 "// old" "+// old"; mkLine "added" 4 "x = 1;" "+x = 1;"] = true /\
  exists comment n,
    In comment [mkComment "general" (Some "Remove this comment") None None None] /\
    (filePath comment = "a.js" \/ filePath comment = "general") /\
    isCommentOverlapping comment 3 4 = true /\
    note comment = Some n /\ JS.trim n <> EmptyString /\
    existsb (JS.includes (JS.toLowerCase n)) commonIssues = true.
Proof.
  assert (H : hasSimilarComment [mkComment "general" (Some "Remove this comment") None None None]
                "a.js" 3 4
                [mkLine "added" 3 "// old" "+// old"; mkLine "added" 4 "x = 1;" "+x = 1;"] = true)
    by (vm_compute; reflexivity).
  split; [exact H|].
  exact (hasSimilarComment_sound _ _ _ _ _ H).
Defined.

(** Comments on other files (neither on [fileName] nor ["general"]) never
    change the answer of [hasSimilarComment]: adding or removing one leaves
    it as it was. *)
Theorem hasSimilarComment_ignores_other_files (pre post : list existingComment)
    (comment : existingComment) (fileName : string) (startLine endLine : Z)
    (lines : list changeLine) :
  filePath comment <> fileName -> filePath comment <> "general" ->
  hasSimilarComment (pre ++ comment :: post) fileName startLine endLine lines =
  hasSimilarComment (pre ++ post) fileName startLine endLine lines.
Proof.
  intros H1 H2. rewrite !hasSimilarComment_eq, !List.filter_app. cbn [List.filter].
  assert (Hr : relevant fileName comment = false).
  { unfold relevant. apply orb_false_iff. split; apply String.eqb_neq; assumption. }
  rewrite Hr. reflexivity.
Qed.

Lemma hasSimilarComment_ignores_other_files_witness :
  filePath (mkComment "b.js" (Some "remove this comment") None (Some 1) (Some 9)) <> "a.js" /\
  filePath (mkComment "b.js" (Some "remove this comment") None (Some 1) (Some 9)) <> "general" /\
  hasSimilarComment ([] ++ mkComment "b.js" (Some "remove this comment") None (Some 1) (Some 9) :: [])
    "a.js" 3 4 [mkLine "added" 3 "// old" "+// old"] =
  hasSimilarComment ([] ++ []) "a.js" 3 4 [mkLine "added" 3 "// old" "+// old"].
Proof.
  split; [discriminate|split; [discriminate|]].
  apply hasSimilarComment_ignores_other_files; discriminate.
Defined.

End SimilarCommentFacts.

(** ** The review-quality filter *)
Module ReviewFilterFacts.
Import AIApiService ReviewFilter.

(** What every kept review satisfies. *)
Definition kept (r : reviewResult) : Prop :=
  JS.trim (review r) <> EmptyString /\
  (15 <= JS.length (review r))%nat /\
  isLowQualityReview (review r) = false.

Lemma not_low_quality_no_pass (s : string) :
  isLowQualityReview s = false -> JS.includes (JS.toLowerCase s) "pass" = false.
Proof.
  unfold isLowQualityReview. intro H.
  destruct (matchesLowQualityPatterns (JS.toLowerCase s)) eqn:E; [discriminate|].
  unfold matchesLowQualityPatterns in E. cbn [existsb lowQualityPatterns] in E.
  apply orb_false_iff in E as [E _]. exact E.
Qed.

Lemma filter_loop_props (rs : list reviewResult) :
  forall seen : list (list Z),
    let out := filter_loop rs seen in
    sublist out rs /\ Forall kept out /\
    List.NoDup (map contentKey out) /\ Forall (fun r => ~ In (contentKey r) seen) out.
Proof.
  induction rs as [|r rs IH]; intro seen; cbv zeta.
  - split; [constructor|split; [constructor|split; [constructor|constructor]]].
  - cbn [filter_loop].
    destruct (String.eqb (JS.trim (review r)) EmptyString) eqn:E1;
      [destruct (IH seen) as (H1 & H2 & H3 & H4);
       split; [apply sublist_cons; exact H1|tauto]|].
    destruct (existsb (key_eqb (contentKey r)) seen) eqn:E2;
      [destruct (IH seen) as (H1 & H2 & H3 & H4);
       split; [apply sublist_cons; exact H1|tauto]|].
    destruct (Nat.ltb (JS.length (review r)) 15) eqn:E3;
      [destruct (IH seen) as (H1 & H2 & H3 & H4);
       split; [apply sublist_cons; exact H1|tauto]|].
    destruct (isLowQualityReview (review r)) eqn:E4;
      [destruct (IH seen) as (H1 & H2 & H3 & H4);
       split; [apply sublist_cons; exact H1|tauto]|].
    destruct (IH (contentKey r :: seen)) as (H1 & H2 & H3 & H4).
    assert (Hnot : ~ In (contentKey r) seen).
    { intro Hin. assert (existsb (key_eqb (contentKey r)) seen = true)
        by (apply existsb_exists; exists (contentKey r); split; [exact Hin|apply bool_decide_eq_true; reflexivity]).
      congruence. }
    split; [apply sublist_skip; exact H1|].
    split; [constructor; [|exact H2]|].
    + split; [apply String.eqb_neq; exact E1|split; [apply Nat.ltb_ge; exact E3|exact E4]].
    + split.
      * cbn [map]. constructor; [|exact H3].
        intro Hin. apply in_map_iff in Hin as (r' & Hk & Hr').
        rewrite List.Forall_forall in H4. apply (H4 r' Hr'). rewrite Hk. left. reflexivity.
      * constructor; [exact Hnot|].
        rewrite List.Forall_forall in H4 |- *. intros r' Hr' Hin. apply (H4 r' Hr'). right. exact Hin.
Qed.

Lemma filter_loop_keeps (rs : list reviewResult) :
  forall seen : list (list Z),
    Forall kept rs -> List.NoDup (map contentKey rs) ->
    Forall (fun r => ~ In (contentKey r) seen) rs ->
    filter_loop rs seen = rs.
Proof.
  induction rs as [|r rs IH]; intros seen Hk Hnd Hs; [reflexivity|].
  inversion Hk as [|? ? (K1 & K2 & K3) Hk']; subst.
  inversion Hnd as [|? ? Hnin Hnd']; subst.
  inversion Hs as [|? ? Hs1 Hs']; subst.
  cbn [filter_loop].
  assert (E1 : String.eqb (JS.trim (review r)) EmptyString = false) by (apply String.eqb_neq; exact K1).
  assert (E2 : existsb (key_eqb (contentKey r)) seen = false).
  { apply not_true_iff_false. intro H. apply existsb_exists in H as (k & Hin & Hkk).
    apply bool_decide_eq_true in Hkk. subst k. exact (Hs1 Hin). }
  assert (E3 : Nat.ltb (JS.length (review r)) 15 = false) by (apply Nat.ltb_ge; exact K2).
  rewrite E1, E2, E3, K3. f_equal.
  apply IH; [exact Hk'|exact Hnd'|].
  rewrite List.Forall_forall in Hs' |- *. intros r' Hr' [Heq|Hin].
  - apply Hnin. rewrite Heq. apply in_map. exact Hr'.
  - exact (Hs' r' Hr' Hin).
Qed.

(** [filterMeaningfulReviews] keeps a subsequence of its input (order
    preserved); every kept review text is non-blank, has a [.length] of at
    least 15 UTF-16 code units, is not low quality (in particular its lower-cased text never
    contains [pass], so a review mentioning e.g. a password is dropped), and
    no two kept reviews share a [lineNumber]-plus-first-50-code-units key. *)
Theorem filterMeaningfulReviews_output (reviews : list reviewResult) :
  let out := filterMeaningfulReviews reviews in
  sublist out reviews /\
  Forall (fun r => JS.trim (review r) <> EmptyString /\ (15 <= JS.length (review r))%nat /\
                   isLowQualityReview (review r) = false /\
                   JS.includes (JS.toLowerCase (review r)) "pass" = false) out /\
  List.NoDup (map contentKey out).
Proof.
  cbv zeta.
  assert (E : filterMeaningfulReviews reviews = filter_loop reviews []) by (destruct reviews; reflexivity).
  rewrite E. destruct (filter_loop_props reviews []) as (H1 & H2 & H3 & _).
  split; [exact H1|split; [|exact H3]].
  eapply Forall_impl; [exact H2|]. intros r (K1 & K2 & K3).
  split; [exact K1|split; [exact K2|split; [exact K3|apply not_low_quality_no_pass; exact K3]]].
Qed.

(** Filtering twice is filtering once. *)
Theorem filterMeaningfulReviews_idempotent (reviews : list reviewResult) :
  filterMeaningfulReviews (filterMeaningfulReviews reviews) = filterMeaningfulReviews reviews.
Proof.
  assert (E : forall l, filterMeaningfulReviews l = filter_loop l []) by (intros [|]; reflexivity).
  rewrite !E. destruct (filter_loop_props reviews []) as (_ & H2 & H3 & _).
  apply filter_loop_keeps; [exact H2|exact H3|].
  rewrite List.Forall_forall. intros r _ [].
Qed.

End ReviewFilterFacts.

(** ** The pre-filter of changed lines *)
Module PreFilterFacts.
Import Regex CodeProcessor PreFilter.

Lemma rmatch_star_now (r : re) (s : list ascii) (k : list ascii -> bool) :
  k s = true -> rmatch (RStar r) s k = true.
Proof. intro H. cbn [rmatch]. destruct (length s); rewrite H; reflexivity. Qed.

Lemma rmatch_RStr_app (p : string) (s : list ascii) (k : list ascii -> bool) :
  rmatch (RStr p) (String.list_ascii_of_string p ++ s) k = k s.
Proof.
  induction p as [|c p IH]; [reflexivity|].
  cbn [RStr rmatch String.list_ascii_of_string app]. rewrite Ascii.eqb_refl. exact IH.
Qed.

Lemma list_ascii_of_string_append (a b : string) :
  String.list_ascii_of_string (a ++ b) = String.list_ascii_of_string a ++ String.list_ascii_of_string b.
Proof. induction a as [|c a IH]; [reflexivity|]. simpl. rewrite IH. reflexivity. Qed.

Lemma export_matches (w : ascii) (rest : string) :
  JS.is_ws w = true -> matchesSkipPatterns ("export" ++ String w rest)%string = true.
Proof.
  intro Hw. apply existsb_exists.
  exists (RSeqs [sp; lit "export"; RPlus ws]). split.
  - unfold skipPatterns. do 9 right. left. reflexivity.
  - unfold test. rewrite list_ascii_of_string_append.
    cbn [RSeqs]. cbn [rmatch]. unfold sp.
    apply rmatch_star_now. cbn [rmatch lit].
    rewrite rmatch_RStr_app. cbn [RPlus rmatch String.list_ascii_of_string].
    unfold ws. cbn [RAlts RSeqs rmatch]. rewrite Hw. cbn [andb].
    destruct (length (String.list_ascii_of_string rest)); reflexivity.
Qed.

(** [preFilterCodeLines] keeps a subsequence of the changed lines; every
    kept line's trimmed content has a [.length] of at least [minLength] (3)
    UTF-16 code units, is
    not blank and matches none of the skip patterns; in particular a line
    whose trimmed content starts with [export] and a whitespace character is
    always dropped. *)
Theorem preFilterCodeLines_output (changeLines : list changeLine) :
  let kept := preFilterCodeLines changeLines in
  sublist kept changeLines /\
  Forall (fun l => (minLength <= JS.length (JS.trim (content l)))%nat /\
                   test FileFilter.blank_re (JS.trim (content l)) = false /\
                   matchesSkipPatterns (JS.trim (content l)) = false) kept /\
  (forall l w rest, JS.trim (content l) = ("export" ++ String w rest)%string ->
                    JS.is_ws w = true -> ~ In l kept).
Proof.
  cbv zeta. unfold preFilterCodeLines.
  split; [|split].
  - induction changeLines as [|l ls IH]; [constructor|].
    cbn [List.filter]. destruct (if negb _ then _ else _); [apply sublist_skip|apply sublist_cons]; exact IH.
  - apply List.Forall_forall. intros l Hin. apply filter_In in Hin as [_ H].
    unfold isValidContentLength, isNotJustWhitespace in H.
    destruct (Nat.ltb (JS.length (JS.trim (content l))) minLength) eqn:E1; [discriminate|].
    destruct (matchesSkipPatterns (JS.trim (content l))); [discriminate|].
    destruct (test FileFilter.blank_re (JS.trim (content l))); [discriminate|].
    split; [apply Nat.ltb_ge; exact E1|split; reflexivity].
  - intros l w rest Ht Hw Hin. apply filter_In in Hin as [_ H].
    rewrite Ht, (export_matches w rest Hw) in H.
    destruct (negb (isValidContentLength _)); discriminate.
Qed.

Lemma preFilterCodeLines_output_witness :
  JS.trim (content (mkLine "added" 4 "  export const a = 1;" "+  export const a = 1;")) =
    ("export" ++ String " " "const a = 1;")%string /\
  ~ In (mkLine "added" 4 "  export const a = 1;" "+  export const a = 1;")
      (preFilterCodeLines [mkLine "added" 4 "  export const a = 1;" "+  export const a = 1;"]).
Proof.
  assert (Ht : JS.trim (content (mkLine "added" 4 "  export const a = 1;" "+  export const a = 1;")) =
               ("export" ++ String " " "const a = 1;")%string) by (vm_compute; reflexivity).
  split; [exact Ht|].
  exact (proj2 (proj2 (preFilterCodeLines_output
                         [mkLine "added" 4 "  export const a = 1;" "+  export const a = 1;"]))
           _ " "%char "const a = 1;" Ht eq_refl).
Defined.

End PreFilterFacts.

(** ** New-file detection and the per-group fallback *)
Module PipelineFacts.
Import CodeProcessor AIApiService AICodeReviewer ReviewPipeline.

Definition is_removed (line : string) : bool :=
  (JS.startsWith line "-" && negb (JS.startsWith line "---"))%bool.

Lemma added_not_removed (line : string) : is_added line = true -> is_removed line = false.
Proof.
  unfold is_added, is_removed, JS.startsWith.
  destruct line as [|c s]; [discriminate|].
  cbn [String.prefix].
  destruct (ascii_dec "+" c) as [E1|N1]; destruct (ascii_dec "-" c) as [E2|N2];
    [rewrite <- E1 in E2; discriminate E2|reflexivity|intro H; discriminate H|].
  intro H; discriminate H.
Qed.

Lemma scan_lines_spec (lines : list string) :
  forall b : bool,
    (let '(a, r) := scan_lines lines b in a && negb r)%bool =
    ((b || existsb is_added lines) && negb (existsb is_removed lines))%bool.
Proof.
  induction lines as [|line rest IH]; intro b.
  - simpl. rewrite orb_false_r. reflexivity.
  - cbn [scan_lines existsb].
    destruct (is_added line) eqn:Ea.
    + rewrite (added_not_removed line Ea). rewrite IH. cbn [orb].
      rewrite orb_true_r. reflexivity.
    + change (JS.startsWith line "-" && negb (JS.startsWith line "---"))%bool with (is_removed line).
      destruct (is_removed line) eqn:Er.
      * cbn. rewrite !andb_false_r. reflexivity.
      * rewrite IH. reflexivity.
Qed.

(** [isNewFile(change)] holds exactly when the change has no (or an empty)
    [old_path], or its diff has at least one added line and no removed line;
    so a change to an existing file that only adds lines is reviewed as a new
    file, as one group. *)
Theorem isNewFile_iff (change : codeChange) :
  isNewFile change = true <->
  old_path change = None \/ old_path change = Some EmptyString \/
  (existsb is_added (JS.split_nl (diff change)) = true /\
   existsb is_removed (JS.split_nl (diff change)) = false).
Proof.
  unfold isNewFile, isOnlyAddedLines.
  pose proof (scan_lines_spec (JS.split_nl (diff change)) false) as H.
  destruct (scan_lines (JS.split_nl (diff change)) false) as [a r].
  cbn [orb] in H. rewrite H.
  destruct (old_path change) as [p|].
  - destruct (String.eqb p EmptyString) eqn:Ep.
    + apply String.eqb_eq in Ep. subst p. split; [intros _; right; left; reflexivity|reflexivity].
    + rewrite andb_true_iff, negb_true_iff. split.
      * intro Hx. right. right. exact Hx.
      * intros [Hx|[Hx|Hx]]; [discriminate|injection Hx as ->; rewrite String.eqb_refl in Ep; discriminate|exact Hx].
  - split; [intros _; left; reflexivity|reflexivity].
Qed.


End PipelineFacts.

(** ** Shape of the batch parser's output *)
Module BatchParserShapeFacts.
Import CodeProcessor AIApiService.

Definition anchored (groups : list group) (r : reviewResult) : Prop :=
  exists g ll text, In g groups /\ lastLine g = Some ll /\ r = review_of g ll text.

Lemma primary_shape (groups : list group) (lines : list string) :
  forall (index : nat) (acc : list reviewResult),
    let out := outcome_reviews (primary groups lines index acc) in
    (length out <= length acc + (length groups - index))%nat /\
    (Forall (anchored groups) acc -> Forall (anchored groups) out).
Proof.
  induction lines as [|line rest IH]; intros index acc; cbv zeta.
  - simpl. split; [lia|tauto].
  - cbn [primary].
    destruct (JS.includes line "PASS").
    + destruct (IH (S index) acc) as [H1 H2]. split; [lia|exact H2].
    + destruct (nth_error groups index) as [g|] eqn:Eg.
      * assert (Hi : (index < length groups)%nat) by (apply nth_error_Some; congruence).
        destruct (negb _ && negb _)%bool.
        -- destruct (lastLine g) as [ll|] eqn:El.
           ++ destruct (IH (S index) (acc ++ [review_of g ll (cleanReview line)])) as [H1 H2].
              rewrite length_app in H1. simpl in H1. split; [lia|].
              intro Ha. apply H2. apply Forall_app. split; [exact Ha|].
              constructor; [|constructor].
              exists g, ll, (cleanReview line).
              split; [eapply nth_error_In; exact Eg|split; [exact El|reflexivity]].
           ++ simpl. split; [lia|tauto].
        -- destruct (IH (S index) acc) as [H1 H2]. split; [lia|exact H2].
      * destruct (IH (S index) acc) as [H1 H2]. split; [lia|exact H2].
Qed.

(** Whatever the model's response, [parseBatchReviewResultFast] returns at
    most one review per group of the batch, and every review is anchored at
    the last line of one of the batch's groups. *)
Theorem parseBatchReviewResultFast_shape (groups : list group) (reviewText : string) :
  let out := parseBatchReviewResultFast groups reviewText in
  (length out <= length groups)%nat /\ Forall (anchored groups) out.
Proof.
  cbv zeta. unfold parseBatchReviewResultFast. cbv zeta.
  destruct (forallb _ _); [split; [simpl; lia|constructor]|].
  destruct (negb _ && _)%bool; [|split; [simpl; lia|constructor]].
  destruct (primary_shape groups (nonblank_lines reviewText) 0 []) as [P1 P2].
  simpl in P1. specialize (P2 ltac:(constructor)).
  destruct (primary groups (nonblank_lines reviewText) 0 []) as [acc|acc] eqn:Ep.
  - destruct acc as [|r acc'].
    + destruct (Nat.leb (length groups) (length (nonblank_lines reviewText))).
      * unfold fallback_by_position.
        destruct (primary_shape groups (firstn (length groups) (nonblank_lines reviewText)) 0 [])
          as [Q1 Q2].
        simpl in Q1. split; [lia|apply Q2; constructor].
      * unfold fallback_first_group. destruct groups as [|g gs]; [split; [simpl; lia|constructor]|].
        destruct (lastLine g) as [ll|] eqn:El; [|split; [simpl; lia|constructor]].
        split; [simpl; lia|]. constructor; [|constructor].
        exists g, ll, (JS.trim reviewText). split; [left; reflexivity|split; [exact El|reflexivity]].
    + simpl in P1, P2. split; [simpl; lia|exact P2].
  - simpl in P1, P2. split; [lia|exact P2].
Qed.

End BatchParserShapeFacts.

(** ** Cache eviction and cache keys *)
Module CacheKeyFacts.
Import CodeProcessor AIApiService CacheManager AICodeReviewer.

(** [cacheReview] stores the new entry and never drops an entry that has
    not expired: the clean-up only removes expired entries, so when no entry
    has expired, storing a new key grows the cache by one even beyond
    [cache.maxSize]. *)
Theorem cacheReview_keeps_fresh (c : reviewCache) (key : string) (rs : list reviewResult) (now : Z) :
  cacheReview c key rs now !! key = Some (mkEntry rs now) /\
  (forall k e, k <> key -> c !! k = Some e -> now - timestamp e <= Config.cache_expiry ->
               cacheReview c key rs now !! k = Some e) /\
  ((forall k e, c !! k = Some e -> now - timestamp e <= Config.cache_expiry) ->
   c !! key = None -> size (cacheReview c key rs now) = S (size c)).
Proof.
  split; [apply CacheFacts.cacheReview_lookup|split].
  - intros k e Hne Hk Hfresh. unfold cacheReview.
    assert (Hi : <[key := mkEntry rs now]> c !! k = Some e) by (rewrite lookup_insert_ne; congruence).
    destruct (Nat.ltb _ _); [|exact Hi].
    unfold cleanupCache. apply map_lookup_filter_Some_2; [exact Hi|exact Hfresh].
  - intros Hall Hnone. unfold cacheReview.
    assert (Hs : size (<[key := mkEntry rs now]> c) = S (size c)) by (apply map_size_insert_None; exact Hnone).
    destruct (Nat.ltb _ _); [|exact Hs].
    unfold cleanupCache. rewrite map_filter_id; [exact Hs|].
    intros k e Hk. apply lookup_insert_Some in Hk as [[_ <-]|[_ Hk]].
    + simpl. unfold Config.cache_expiry. lia.
    + exact (Hall k e Hk).
Qed.

(** A cache already past [cache.maxSize]: 1001 entries, all stored at time 0. *)
Definition full_cache : reviewCache :=
  list_to_map (map (fun n => (Z_to_string (Z.of_nat n), mkEntry [] 0)) (seq 0 1001)).

Lemma cacheReview_keeps_fresh_witness :
  (Config.cache_maxSize < size full_cache)%nat /\
  full_cache !! "7" = Some (mkEntry [] 0) /\
  (forall k e, full_cache !! k = Some e -> 5 - timestamp e <= Config.cache_expiry) /\
  full_cache !! "new" = None /\
  cacheReview full_cache "new" [] 5 !! "new" = Some (mkEntry [] 5) /\
  (forall k e, k <> "new" -> full_cache !! k = Some e -> 5 - timestamp e <= Config.cache_expiry ->
               cacheReview full_cache "new" [] 5 !! k = Some e) /\
  size (cacheReview full_cache "new" [] 5) = S (size full_cache).
Proof.
  assert (H0 : (Config.cache_maxSize < size full_cache)%nat) by (vm_compute; repeat constructor).
  assert (H7 : full_cache !! "7" = Some (mkEntry [] 0)) by (vm_compute; reflexivity).
  assert (Hf : map_Forall (fun _ e => 5 - timestamp e <= Config.cache_expiry) full_cache)
    by (apply (bool_decide_unpack _); vm_compute; reflexivity).
  assert (H1 : forall k e, full_cache !! k = Some e -> 5 - timestamp e <= Config.cache_expiry)
    by exact Hf.
  assert (H2 : full_cache !! "new" = None) by (vm_compute; reflexivity).
  destruct (cacheReview_keeps_fresh full_cache "new" [] 5) as (K1 & K2 & K3).
  split; [exact H0|split; [exact H7|split; [exact H1|split; [exact H2|]]]].
  split; [exact K1|split; [exact K2|exact (K3 H1 H2)]].
Defined.

(** Groups the cache key cannot tell apart: same line range and the same
    line contents once concatenated. *)
Definition same_key_group (g1 g2 : group) : Prop :=
  startLine g1 = startLine g2 /\ endLine g1 = endLine g2 /\
  join EmptyString (map content (glines g1)) = join EmptyString (map content (glines g2)).

Lemma generateCacheKey_same (fileName : string) (b1 b2 : list group) :
  Forall2 same_key_group b1 b2 -> generateCacheKey fileName b1 = generateCacheKey fileName b2.
Proof.
  intro H. unfold generateCacheKey. f_equal. f_equal. f_equal.
  induction H as [|g1 g2 b1 b2 (E1 & E2 & E3) _ IH]; [reflexivity|].
  simpl. rewrite E1, E2, E3, IH. reflexivity.
Qed.

(** [generateCacheKey] joins the lines of a group with no separator, so two
    batches over the same line ranges whose lines differ only in where the
    line breaks fall get the same key: once reviews for the first are cached
    and fresh, [processBatchWithFallback] answers the second with them,
    without a model call. *)
Theorem cache_key_ignores_line_breaks
    (processBatchParallel : string -> list group -> nat -> exn + list reviewResult)
    (processGroupsIndividually : string -> list group -> list reviewResult)
    (fileName : string) (b1 b2 : list group) (now : Z) (st : orchState) (rs : list reviewResult) :
  Forall2 same_key_group b1 b2 ->
  fst (getCachedReview (cache st) (generateCacheKey fileName b1) now) = Some rs ->
  fst (processBatchWithFallback processBatchParallel processGroupsIndividually fileName b2 now st) = rs /\
  submissions (snd (processBatchWithFallback processBatchParallel processGroupsIndividually
                      fileName b2 now st)) = submissions st.
Proof.
  intros Hs Hc. rewrite (generateCacheKey_same fileName b1 b2 Hs) in Hc.
  unfold processBatchWithFallback.
  destruct (getCachedReview (cache st) (generateCacheKey fileName b2) now) as [[r|] c1].
  - simpl in Hc. injection Hc as ->. split; reflexivity.
  - discriminate.
Qed.

Definition g_ab_c : group :=
  mkGroup 1 [mkLine "added" 1 "a = 1;" "+a = 1;"; mkLine "added" 2 "b = 2;" "+b = 2;"] 1 2 "added".
Definition g_a_bc : group :=
  mkGroup 1 [mkLine "added" 1 "a = 1;b" "+a = 1;b"; mkLine "added" 2 " = 2;" "+ = 2;"] 1 2 "added".
Definition cached_review : reviewResult := mkReview 2 "b = 2;" "Use const for b" 1 true 2.

Lemma cache_key_ignores_line_breaks_witness :
  g_ab_c <> g_a_bc /\
  Forall2 same_key_group [g_ab_c] [g_a_bc] /\
  fst (processBatchWithFallback (fun _ _ _ => inr []) (fun _ _ => []) "a.js" [g_a_bc] 10
         (mkState (cacheReview ∅ (generateCacheKey "a.js" [g_ab_c]) [cached_review] 0) 0)) =
    [cached_review].
Proof.
  assert (Hs : Forall2 same_key_group [g_ab_c] [g_a_bc]).
  { constructor; [|constructor]. split; [reflexivity|split; [reflexivity|vm_compute; reflexivity]]. }
  split; [discriminate|split; [exact Hs|]].
  refine (proj1 (cache_key_ignores_line_breaks _ _ "a.js" [g_ab_c] [g_a_bc] 10 _ _ Hs _)).
  vm_compute. reflexivity.
Defined.

End CacheKeyFacts.

(** ** File significance *)
Module SignificanceFacts.
Import FileFilter.

Lemma no_added_lines (diff : string) :
  countAddedLines diff = 0%nat ->
  forall line, In line (JS.split_nl diff) -> CodeProcessor.is_added line = false.
Proof.
  unfold countAddedLines. intros H line Hin.
  destruct (CodeProcessor.is_added line) eqn:E; [|reflexivity].
  assert (Hf : In line (List.filter CodeProcessor.is_added (JS.split_nl diff)))
    by (apply filter_In; split; assumption).
  destruct (List.filter CodeProcessor.is_added (JS.split_nl diff)); [destruct Hf|discriminate].
Qed.

Definition vue_inv (st : vueAnalysis) : Prop :=
  Nat.eqb (addedLineCount st) 0 = negb (hasStyleChanges st || hasNonStyleChanges st).

Definition vue_step (st : vueAnalysis) (line : string) : vueAnalysis :=
  let content := JS.trim (JS.substring1 line) in
  if isStyleTag content then
    mkVue (addedLineCount st) (hasStyleChanges st) (hasNonStyleChanges st) (negb (inStyleSection st))
  else if CodeProcessor.is_added line then
    if inStyleSection st then
      mkVue (S (addedLineCount st)) true (hasNonStyleChanges st) (inStyleSection st)
    else
      mkVue (S (addedLineCount st)) (hasStyleChanges st) true (inStyleSection st)
  else st.

Lemma analyze_eq (diff : string) :
  analyzeVueFileChanges diff = fold_left vue_step (JS.split_nl diff) (mkVue 0 false false false).
Proof. reflexivity. Qed.

Lemma vue_fold_inv (lines : list string) :
  forall st, vue_inv st -> vue_inv (fold_left vue_step lines st).
Proof.
  induction lines as [|line rest IH]; intros st H; [exact H|].
  cbn [fold_left]. apply IH. unfold vue_step, vue_inv in *.
  destruct (isStyleTag _); [exact H|].
  destruct (CodeProcessor.is_added line); [|exact H].
  destruct (inStyleSection st); simpl; [reflexivity|rewrite orb_true_r; reflexivity].
Qed.

Lemma vue_fold_no_added (lines : list string) :
  (forall line, In line lines -> CodeProcessor.is_added line = false) ->
  forall st, addedLineCount (fold_left vue_step lines st) = addedLineCount st.
Proof.
  induction lines as [|line rest IH]; intros H st; [reflexivity|].
  cbn [fold_left]. rewrite IH; [|intros l Hl; apply H; right; exact Hl].
  unfold vue_step. destruct (isStyleTag _); [reflexivity|].
  rewrite (H line (or_introl eq_refl)). reflexivity.
Qed.

Lemma shouldReviewVueFile_eq (diff : string) :
  shouldReviewVueFile diff = hasNonStyleChanges (analyzeVueFileChanges diff).
Proof.
  unfold shouldReviewVueFile, hasOnlyStyleChanges.
  assert (Hi : vue_inv (analyzeVueFileChanges diff))
    by (rewrite analyze_eq; apply vue_fold_inv; reflexivity).
  unfold vue_inv in Hi.
  destruct (analyzeVueFileChanges diff) as [n s ns i]. simpl in *.
  rewrite Hi. destruct s, ns; reflexivity.
Qed.

(** A diff without added lines (only removals or context) is never
    significant, whatever the file name: no special rule, ignored extension
    or basic check lets it through. *)
Theorem no_added_lines_not_significant (diff : string) (fileName : option string) :
  countAddedLines diff = 0%nat -> isSignificantChange diff fileName = false.
Proof.
  intro H0.
  assert (Hb : hasBasicChanges diff = false) by (unfold hasBasicChanges; rewrite H0; reflexivity).
  unfold isSignificantChange.
  destruct fileName as [f|]; [|exact Hb].
  destruct (String.eqb f EmptyString); [exact Hb|].
  unfold checkSpecialFileHandling.
  destruct (List.find _ specialHandling) as [r|] eqn:F.
  - assert (Hs : hasSyntaxIssues diff = false).
    { unfold hasSyntaxIssues. apply not_true_iff_false. intro He.
      apply existsb_exists in He as (line & Hin & Hl).
      rewrite (no_added_lines diff H0 line Hin) in Hl. discriminate. }
    assert (Hv : shouldReviewVueFile diff = false).
    { unfold shouldReviewVueFile. rewrite analyze_eq.
      rewrite vue_fold_no_added; [reflexivity|exact (no_added_lines diff H0)]. }
    apply find_some in F as [Hin _].
    cbn [specialHandling In] in Hin.
    destruct Hin as [<-|[<-|[<-|[]]]]; cbn - [hasSyntaxIssues shouldReviewVueFile];
      [reflexivity|exact Hs|exact Hv].
  - destruct (matchesExtensions _ _); [reflexivity|exact Hb].
Qed.

Lemma no_added_lines_not_significant_witness :
  countAddedLines (DiffParsingFacts.unlines ["@@ -1,2 +1,1 @@"; "-a = 1;"; " b = 2;"]) = 0%nat /\
  isSignificantChange (DiffParsingFacts.unlines ["@@ -1,2 +1,1 @@"; "-a = 1;"; " b = 2;"]) (Some "pnpm-lock.yaml") = false.
Proof.
  assert (H : countAddedLines (DiffParsingFacts.unlines ["@@ -1,2 +1,1 @@"; "-a = 1;"; " b = 2;"]) = 0%nat) by (vm_compute; reflexivity).
  split; [exact H|apply no_added_lines_not_significant; exact H].
Defined.

(** A file whose lower-cased name contains [package.json] or
    [package-lock.json] is never reviewed, whatever its diff. *)
Theorem package_files_skipped (diff fileName : string) :
  (JS.includes (JS.toLowerCase fileName) "package.json" = true \/
   JS.includes (JS.toLowerCase fileName) "package-lock.json" = true) ->
  isSignificantChange diff (Some fileName) = false.
Proof.
  intro H.
  assert (Hm : matchesPatterns (JS.toLowerCase fileName) ["package.json"; "package-lock.json"] = true).
  { unfold matchesPatterns. cbn [existsb].
    destruct H as [H|H]; change (JS.toLowerCase "package.json") with "package.json";
      change (JS.toLowerCase "package-lock.json") with "package-lock.json"; rewrite H;
      [reflexivity|apply orb_true_r]. }
  unfold isSignificantChange.
  destruct (String.eqb fileName EmptyString) eqn:Ee.
  - apply String.eqb_eq in Ee. subst fileName.
    destruct H as [H|H]; vm_compute in H; discriminate.
  - unfold checkSpecialFileHandling. cbn [List.find specialHandling rule_enabled rule_patterns].
    rewrite Hm. reflexivity.
Qed.

Lemma package_files_skipped_witness :
  (JS.includes (JS.toLowerCase "web/Package.json") "package.json" = true \/
   JS.includes (JS.toLowerCase "web/Package.json") "package-lock.json" = true) /\
  isSignificantChange "+  version: 2.0.0" (Some "web/Package.json") = false.
Proof.
  assert (H : JS.includes (JS.toLowerCase "web/Package.json") "package.json" = true \/
              JS.includes (JS.toLowerCase "web/Package.json") "package-lock.json" = true)
    by (left; vm_compute; reflexivity).
  split; [exact H|apply package_files_skipped; exact H].
Defined.

(** For a [.vue] file (lower-cased name containing [.vue] and none of the
    package or lock-file names), the change is significant exactly when some
    added line lies outside a [<style>] section, as tracked by the toggling
    on style-tag lines. *)
Theorem vue_significant_iff_non_style (diff fileName : string) :
  matchesPatterns (JS.toLowerCase fileName) ["package.json"; "package-lock.json"] = false ->
  matchesPatterns (JS.toLowerCase fileName) ["pnpm-lock.yaml"; "yarn.lock"] = false ->
  matchesPatterns (JS.toLowerCase fileName) [".vue"] = true ->
  isSignificantChange diff (Some fileName) = hasNonStyleChanges (analyzeVueFileChanges diff).
Proof.
  intros H1 H2 H3. unfold isSignificantChange.
  destruct (String.eqb fileName EmptyString) eqn:Ee.
  - apply String.eqb_eq in Ee. subst fileName. vm_compute in H3. discriminate.
  - unfold checkSpecialFileHandling. cbn [List.find specialHandling rule_enabled rule_patterns andb].
    rewrite H1, H2, H3. cbn [rule_action handleSpecialFileType String.eqb].
    apply shouldReviewVueFile_eq.
Qed.

Lemma vue_significant_iff_non_style_witness :
  matchesPatterns (JS.toLowerCase "App.vue") ["package.json"; "package-lock.json"] = false /\
  matchesPatterns (JS.toLowerCase "App.vue") ["pnpm-lock.yaml"; "yarn.lock"] = false /\
  matchesPatterns (JS.toLowerCase "App.vue") [".vue"] = true /\
  isSignificantChange (DiffParsingFacts.unlines [" <style>"; "+.a { color: red; }"; " </style>"]) (Some "App.vue") =
    hasNonStyleChanges (analyzeVueFileChanges (DiffParsingFacts.unlines [" <style>"; "+.a { color: red; }"; " </style>"])).
Proof.
  split; [reflexivity|split; [reflexivity|split; [vm_compute; reflexivity|]]].
  apply vue_significant_iff_non_style; vm_compute; reflexivity.
Defined.

Lemma parseDiffLines_fst_length (lines : list string) :
  length (fst (fold_right (fun line '(added, removed) =>
                if CodeProcessor.is_added line then (JS.trim (JS.substring1 line) :: added, removed)
                else if (JS.startsWith line "-" && negb (JS.startsWith line "---"))%bool
                then (added, JS.trim (JS.substring1 line) :: removed)
                else (added, removed)) ([], []) lines)) =
  length (List.filter CodeProcessor.is_added lines).
Proof.
  induction lines as [|line rest IH]; [reflexivity|].
  cbn [fold_right List.filter].
  destruct (fold_right _ ([], []) rest) as [a r]. simpl in IH.
  destruct (CodeProcessor.is_added line); [simpl; rewrite IH; reflexivity|].
  destruct (_ && _)%bool; exact IH.
Qed.

(** For a diff that removes no line, the basic check of [isSignificantChange]
    keeps it exactly when its added lines are neither all blank nor all
    comment lines ([//], [/*], [*] prefixes). *)
Theorem pure_addition_basic_changes (diff : string) :
  snd (FileFilter.parseDiffLines diff) = [] ->
  hasBasicChanges diff =
  (negb (forallb (Regex.test blank_re) (fst (FileFilter.parseDiffLines diff))) &&
   negb (forallb isCommentLine (fst (FileFilter.parseDiffLines diff))))%bool.
Proof.
  intro Hr.
  assert (Hc : countAddedLines diff = length (fst (FileFilter.parseDiffLines diff)))
    by (unfold countAddedLines, FileFilter.parseDiffLines; rewrite parseDiffLines_fst_length; reflexivity).
  unfold hasBasicChanges, isFormatOnlyChange. rewrite Hc.
  destruct (FileFilter.parseDiffLines diff) as [added removed]. simpl in Hr |- *. subst removed.
  destruct added as [|a added']; [reflexivity|].
  cbn [length Nat.eqb andb].
  unfold hasOnlyWhitespaceChanges, hasOnlyCommentFormatChanges, hasOnlyNormalizedChanges.
  cbn [forallb combine existsb]. rewrite !andb_true_r.
  destruct (Regex.test blank_re a && forallb (Regex.test blank_re) added')%bool; [reflexivity|].
  destruct (isCommentLine a && forallb isCommentLine added')%bool; reflexivity.
Qed.

Lemma pure_addition_basic_changes_witness :
  snd (FileFilter.parseDiffLines (DiffParsingFacts.unlines ["+// note"; "+const x = 1;"])) = [] /\
  hasBasicChanges (DiffParsingFacts.unlines ["+// note"; "+const x = 1;"]) =
  (negb (forallb (Regex.test blank_re) (fst (FileFilter.parseDiffLines (DiffParsingFacts.unlines ["+// note"; "+const x = 1;"])))) &&
   negb (forallb isCommentLine (fst (FileFilter.parseDiffLines (DiffParsingFacts.unlines ["+// note"; "+const x = 1;"])))))%bool.
Proof.
  assert (H : snd (FileFilter.parseDiffLines (DiffParsingFacts.unlines ["+// note"; "+const x = 1;"])) = []) by (vm_compute; reflexivity).
  split; [exact H|apply pure_addition_basic_changes; exact H].
Defined.

End SignificanceFacts.

(** ** Shape of the line groups *)
Module GroupShapeFacts.
Import CodeProcessor.

(** A group as [createNewGroup] and [addLineToGroup] build it. *)
Definition well_formed (g : group) : Prop :=
  exists first rest,
    glines g = first :: rest /\
    startLine g = lineNumber first /\
    endLine g = lineNumber (List.last (first :: rest) first).

Lemma group_loop_shape (maxLines : Z) (smart : bool) (rest : list changeLine) :
  forall (groups : list group) (cur : group),
    Forall well_formed groups -> well_formed cur ->
    map gid groups = seq 1 (length groups) -> gid cur = S (length groups) ->
    let out := group_loop maxLines smart rest groups cur in
    concat (map glines out) = concat (map glines groups) ++ glines cur ++ rest /\
    Forall well_formed out /\ map gid out = seq 1 (length out).
Proof.
  induction rest as [|l rest IH]; intros groups cur Hw Hc Hids Hcid; cbv zeta.
  - cbn [group_loop]. rewrite map_app, concat_app. simpl. rewrite !app_nil_r.
    split; [reflexivity|split].
    + apply Forall_app. split; [exact Hw|constructor; [exact Hc|constructor]].
    + rewrite map_app, length_app, Hids. simpl. rewrite Hcid, seq_app. reflexivity.
  - cbn [group_loop].
    destruct (if smart then _ else _).
    + destruct (IH (groups ++ [cur]) (createNewGroup l (length (groups ++ [cur]) + 1)))
        as (H1 & H2 & H3).
      * apply Forall_app. split; [exact Hw|constructor; [exact Hc|constructor]].
      * exists l, []. split; [reflexivity|split; reflexivity].
      * rewrite map_app, length_app, Hids. simpl. rewrite Hcid, seq_app. reflexivity.
      * simpl. lia.
      * split; [|split; [exact H2|exact H3]].
        rewrite H1, map_app, concat_app. simpl. rewrite app_nil_r, <- !app_assoc. reflexivity.
    + destruct (IH groups (addLineToGroup cur l)) as (H1 & H2 & H3); [exact Hw| | exact Hids|exact Hcid|].
      * destruct Hc as (first & rs & Hl & Hs & He).
        exists first, (rs ++ [l]). unfold addLineToGroup. cbn [glines startLine endLine].
        rewrite Hl. split; [reflexivity|split; [exact Hs|]].
        rewrite app_comm_cons, last_last. reflexivity.
      * split; [|split; [exact H2|exact H3]].
        rewrite H1. simpl. rewrite <- app_assoc. reflexivity.
Qed.

(** [groupLines] (basic or smart) partitions the changed lines: the groups'
    lines, concatenated in order, are exactly the input; every group is
    non-empty, starts at its first line's number and ends at its last
    line's number; and the group ids are [1, 2, ..., n] in order. *)
Theorem groupLines_partition (maxLines : Z) (changeLines : list changeLine) (useSmartGrouping : bool) :
  let groups := groupLines maxLines changeLines useSmartGrouping in
  concat (map glines groups) = changeLines /\
  Forall well_formed groups /\
  map gid groups = seq 1 (length groups).
Proof.
  cbv zeta. destruct changeLines as [|l0 rest].
  - split; [reflexivity|split; [constructor|reflexivity]].
  - unfold groupLines.
    destruct (group_loop_shape maxLines useSmartGrouping rest [] (createNewGroup l0 1))
      as (H1 & H2 & H3); [constructor|exists l0, []; split; [reflexivity|split; reflexivity]
                          |reflexivity|reflexivity|].
    split; [exact H1|split; [exact H2|exact H3]].
Qed.

(** With a configured [MAX_LINES_PER_GROUP] of at least 1 (or the default),
    no group built by [optimizeLineGroups] has more lines than the limit. *)
Theorem optimizeLineGroups_bounded (env : option Z) (changeLines : list changeLine) :
  1 <= Config.maxLinesPerGroup env ->
  forall g, In g (optimizeLineGroups env changeLines) ->
    Z.of_nat (length (glines g)) <= Config.maxLinesPerGroup env.
Proof.
  intros Hm g Hin. exact (GroupingFacts.groupLines_smart_size _ changeLines Hm g Hin).
Qed.

Lemma optimizeLineGroups_bounded_witness :
  1 <= Config.maxLinesPerGroup (Some 2) /\
  (forall g, In g (optimizeLineGroups (Some 2) (GroupingFacts.plain_lines 5)) ->
     Z.of_nat (length (glines g)) <= Config.maxLinesPerGroup (Some 2)).
Proof.
  assert (H : 1 <= Config.maxLinesPerGroup (Some 2)) by (vm_compute; discriminate).
  split; [exact H|exact (optimizeLineGroups_bounded (Some 2) _ H)].
Defined.

End GroupShapeFacts.
